(** * DD-Guard gateway: a shallow embedding of [ddguard.py] and [sensor_codes.py]

    The gateway polls the pump driver, corrects the pump clock drift, pushes
    the readings to Blynk and Nightscout and re-arms a timer for the next
    cycle.  The Python globals become an explicit state record, the external
    collaborators (driver, Blynk, Nightscout, timer, clocks) become an oracle
    record, and every function that performs calls on them is written in a
    small state-and-exception monad that also logs the calls it makes.

    Conventions.
    - [datetime] and [timedelta] values are integers counting microseconds
      (the resolution of Python's [datetime]); a [datetime] is the instant it
      denotes.
    - Python [float] fields are rationals; only finite values are represented.
    - Python built-ins whose result depends on the interpreter or the platform
      ([int] on a string, [str] on a float, [strftime], [str.strip]) are
      fields of the record [Builtins].
    - [print] calls are omitted; [syslog] calls are logged. *)

From Stdlib Require Import ZArith QArith Qround String Ascii List Lia Bool.
From Stdlib Require Import DecimalString DecimalZ.
From stdpp Require Import gmap strings.
Import ListNotations.
Local Open Scope Z_scope.

(** ** Python values used by the gateway *)

Definition datetime := Z.
Definition timedelta := Z.

(** [datetime.timedelta(seconds=s)] and [datetime.timedelta(minutes=m)]. *)
Definition timedelta_seconds (s : Z) : timedelta := s * 1000000.
Definition timedelta_minutes (m : Z) : timedelta := m * 60000000.

(** [int(td.total_seconds())]: [int] truncates towards zero.
    [total_seconds] is a float; for a difference of less than 2^33 s it is
    exact to well under a microsecond and the truncation is the exact
    quotient below.  For longer differences the code's value can exceed the
    quotient by one. *)
Definition int_total_seconds (td : timedelta) : Z := Z.quot td 1000000.

(** [round(x)] of Python 3 on a float: nearest integer, ties to even. *)
Definition py_round (x : Q) : Z :=
  let f := Qfloor x in
  match Qcompare (x - inject_Z f) (1 # 2) with
  | Lt => f
  | Gt => f + 1
  | Eq => if Z.even f then f else f + 1
  end.

Record Builtins := {
  py_int : string -> option Z;      (* int(s); None when it raises ValueError *)
  str_float : Q -> string;          (* str(x) for a float x *)
  str_strip : string -> string;     (* s.strip() *)
  strftime_HM : datetime -> string; (* t.strftime with format %H:%M *)
  strftime_s : datetime -> Z        (* int(t.strftime) with format %s *)
}.

(** ** sensor_codes.py *)

Module SENSOR_EXCEPTIONS.
Definition SENSOR_OK : Z := 0x0300.
Definition SENSOR_OK_STR : string := "Sensor OK".
Definition SENSOR_INIT : Z := 0x0301.
Definition SENSOR_INIT_STR : string := "Sensor warming up".
Definition SENSOR_CAL_NEEDED : Z := 0x0302.
Definition SENSOR_CAL_NEEDED_STR : string := "Calibrate sensor now ".
Definition SENSOR_ERROR : Z := 0x0303.
Definition SENSOR_ERROR_STR : string := "Updating sensor".
Definition SENSOR_CAL_ERROR : Z := 0x0304.
Definition SENSOR_CAL_ERROR_STR : string := "Calibration error".
Definition SENSOR_CHANGE_SENSOR : Z := 0x0305.
Definition SENSOR_CHANGE_SENSOR_STR : string := "Change sensor".
Definition SENSOR_END_OF_LIFE : Z := 0x0306.
Definition SENSOR_END_OF_LIFE_STR : string := "Sensor expired".
Definition SENSOR_NOT_READY : Z := 0x0307.
Definition SENSOR_NOT_READY_STR : string := "Sensor not ready".
Definition SENSOR_READING_HIGH : Z := 0x0308.
Definition SENSOR_READING_HIGH_STR : string := "Sensor reading too high".
Definition SENSOR_READING_LOW : Z := 0x0309.
Definition SENSOR_READING_LOW_STR : string := "Sensor reading too low".
Definition SENSOR_CAL_PENDING : Z := 0x030A.
Definition SENSOR_CAL_PENDING_STR : string := "Calibrating sensor".
Definition SENSOR_CHANGE_CAL_ERROR : Z := 0x030B.
Definition SENSOR_CHANGE_CAL_ERROR_STR : string := "Cal error - Change sensor".
Definition SENSOR_TIME_UNKNOWN : Z := 0x030C.
Definition SENSOR_TIME_UNKNOWN_STR : string := "Time unknown".
End SENSOR_EXCEPTIONS.
Import SENSOR_EXCEPTIONS.

(** ** ddguard.py: constants *)

Definition UPDATE_INTERVAL : Z := 300.
Definition RETRY_INTERVAL : Z := 180.
Definition RETRY_DELAY : Z := 5.
Definition MAX_RETRIES_AT_FAILURE : nat := 3.

Definition VPIN_SENSOR : Z := 1.
Definition VPIN_BATTERY : Z := 2.
Definition VPIN_UNITS : Z := 3.
Definition VPIN_ARROWS : Z := 4.
Definition VPIN_STATUS : Z := 5.
Definition VPIN_ACTINS : Z := 6.
Definition VPIN_LASTBOLUS : Z := 7.

Definition BLYNK_WHITE : string := "#F0F0F0".
Definition BLYNK_GREEN : string := "#23C48E".
Definition BLYNK_BLUE : string := "#04C0F8".
Definition BLYNK_YELLOW : string := "#ED9D00".
Definition BLYNK_RED : string := "#D3435C".
Definition BLYNK_DARK_BLUE : string := "#5F7CD8".

(** A Python dict literal evaluates its items left to right; a key that
    occurs twice keeps the value of its last occurrence. *)
Definition dict_literal (items : list (Z * string)) : gmap Z string :=
  foldl (fun m kv => <[kv.1 := kv.2]> m) ∅ items.

(** ** ddguard.py: configuration *)

Definition to_int (B : Builtins) (s : string) : Z :=
  match py_int B s with
  | Some i => i
  | None => 0
  end.

(** [split] at the hash sign, item 0: the text before the first hash sign. *)
Fixpoint split_hash_0 (s : string) : string :=
  match s with
  | EmptyString => EmptyString
  | String c s' => if Ascii.eqb c "#" then EmptyString else String c (split_hash_0 s')
  end.

Fixpoint lstrip (c : ascii) (s : string) : string :=
  match s with
  | EmptyString => EmptyString
  | String a s' => if Ascii.eqb a c then lstrip c s' else s
  end.

Fixpoint rstrip (c : ascii) (s : string) : string :=
  match s with
  | EmptyString => EmptyString
  | String a s' =>
      match rstrip c s' with
      | EmptyString => if Ascii.eqb a c then EmptyString else String a EmptyString
      | r => String a r
      end
  end.

(** [s.strip(c)] for a one-character argument. *)
Definition strip (c : ascii) (s : string) : string := rstrip c (lstrip c s).

Definition double_quote : ascii := ascii_of_nat 34.
Definition single_quote : ascii := ascii_of_nat 39.

(** The cleaning applied to every option value before it is used: the text
    before the first hash sign, stripped of double quotes, then of single
    quotes. *)
Definition unquote (v : string) : string :=
  strip single_quote (strip double_quote (split_hash_0 v)).

(** What [config.get(section, key)] returns for each option the gateway
    reads; [None] when the call raises because the option is missing.  A
    call that raises for another reason (a lone percent sign in the text of
    a present option, under the default interpolation) has no counterpart
    here: the record describes files whose present options can be read. *)
Record RawConfig := {
  raw_blynk_server : option string;
  raw_blynk_token : option string;
  raw_blynk_heartbeat : option string;
  raw_nightscout_server : option string;
  raw_nightscout_api_secret : option string;
  raw_bgl_low : option string;
  raw_bgl_pre_low : option string;
  raw_bgl_pre_high : option string;
  raw_bgl_high : option string
}.

(** The attributes [read_config] stores on itself. *)
Record Settings := {
  blynk_server : string;
  blynk_token : string;
  blynk_heartbeat : Z;
  nightscout_server : string;
  nightscout_api_secret : string;
  bgl_low_val : Z;
  bgl_pre_low_val : Z;
  bgl_pre_high_val : Z;
  bgl_high_val : Z
}.

(** "Disable BGL parameters if not specified in config". *)
Definition disable_if_zero (v : Z) : Z := if v =? 0 then 1000 else v.

(** [read_config]: [None] stands for every outcome that ends the start-up
    (a missing option: the except clauses mean to return False but name an
    attribute the class does not have, so the exception escapes instead;
    either way the daemon does not start); [Some] is the [return True]
    path. *)
Definition read_config (B : Builtins) (raw : RawConfig) : option Settings :=
  server ← raw_blynk_server raw;
  token ← raw_blynk_token raw;
  heartbeat ← raw_blynk_heartbeat raw;
  ns_server ← raw_nightscout_server raw;
  ns_secret ← raw_nightscout_api_secret raw;
  low ← raw_bgl_low raw;
  pre_low ← raw_bgl_pre_low raw;
  pre_high ← raw_bgl_pre_high raw;
  high ← raw_bgl_high raw;
  Some {| blynk_server := str_strip B (unquote server);
          blynk_token := str_strip B (unquote token);
          blynk_heartbeat := to_int B (unquote heartbeat);
          nightscout_server := str_strip B (unquote ns_server);
          nightscout_api_secret := str_strip B (unquote ns_secret);
          bgl_low_val := to_int B (unquote low);
          bgl_pre_low_val := to_int B (unquote pre_low);
          bgl_pre_high_val := disable_if_zero (to_int B (unquote pre_high));
          bgl_high_val := disable_if_zero (to_int B (unquote high)) |}.

Definition string_nonempty (s : string) : bool :=
  match s with EmptyString => false | _ => true end.

Definition blynk_enabled (cfg : Settings) : bool :=
  string_nonempty (blynk_token cfg) && string_nonempty (blynk_server cfg).

Definition nightscout_enabled (cfg : Settings) : bool :=
  string_nonempty (nightscout_server cfg) && string_nonempty (nightscout_api_secret cfg).

(** ** The telemetry snapshot returned by the driver *)

Record PumpAlert := {
  alertSuspend : bool;
  alertSuspendLow : bool;
  alertOnLow : bool;
  alertOnHigh : bool;
  alertBeforeLow : bool;
  alertBeforeHigh : bool
}.

(** The keys of the dict returned by [cnl24driverlib.readLiveData] that the
    gateway reads. *)
Record LiveData := {
  sensorBGL : Z;
  sensorBGLTimestamp : datetime;
  sensorCalMinutesRemaining : Z;
  trendArrow : string;
  pumpTime : datetime;
  pumpTimeDrift : timedelta;
  activeInsulin : Q;
  lastBolusAmount : Q;
  lastBolusTime : datetime;
  insulinUnitsRemaining : Q;
  batteryLevelPercentage : Z;
  sensorBatteryLevelPercentage : Z;
  pumpAlert : PumpAlert
}.

(** ** Process-wide state, external calls and the oracle of one cycle *)

(** The module-level variables written by the cycle; [g_active] is the
    function attribute [upload_live_data.active].  [g_cycleTimer] holds the
    delay the last [threading.Timer] object was built with. *)
Record Globals := {
  g_active : bool;
  g_lastBolusTime : option Z;
  g_cycleTimer : option Z;
  g_cycleCount : Z
}.

Inductive value :=
| VNone
| VInt (i : Z)
| VFloat (x : Q)
| VStr (s : string).

(** The calls on the collaborators that completed. *)
Inductive call :=
| readLiveData
| sleep (seconds : Z)
| syslog (msg : string)
| virtual_write (pin : Z) (v : value)
| set_property (pin : Z) (prop : string) (v : string)
| nightscout_upload (data : option LiveData)
| Timer_start (delay : Z).

Inductive read_result :=
| read_raises
| read_returns (data : option LiveData).

(** What the outside world does during one cycle: the outcome of each
    driver read (by attempt number), which Blynk call raises (by call
    number), whether the Nightscout upload and the timer start raise, and
    the three clock readings. *)
Record World := {
  driver_read : nat -> read_result;
  blynk_raises : nat -> bool;
  nightscout_raises : bool;
  timer_raises : bool;
  now_naive : datetime;   (* datetime.datetime.now() in the status line *)
  time_time : Z;          (* int(time.time()) in the bolus check *)
  now_pump_tz : datetime  (* datetime.datetime.now(tz) when rescheduling *)
}.

(** The state threaded through a cycle.  Each logged call carries the value
    [upload_live_data.active] had when the call was made. *)
Record State := {
  globals : Globals;
  trace : list (bool * call);
  blynk_calls : nat
}.

Inductive result (A : Type) :=
| Returns (a : A)
| Raises.
Arguments Returns {A} a.
Arguments Raises {A}.

Definition M (A : Type) : Type := State -> result A * State.

#[global] Instance M_ret : MRet M := fun A a s => (Returns a, s).
#[global] Instance M_bind : MBind M := fun A B f m s =>
  match m s with
  | (Returns a, s') => f a s'
  | (Raises, s') => (Raises, s')
  end.

(** [try: m except: handler]. *)
Definition try_except {A : Type} (m handler : M A) : M A := fun s =>
  match m s with
  | (Returns a, s') => (Returns a, s')
  | (Raises, s') => handler s'
  end.

Definition get_globals : M Globals := fun s => (Returns (globals s), s).

Definition put_globals (g : Globals) : M unit := fun s =>
  (Returns tt, {| globals := g; trace := trace s; blynk_calls := blynk_calls s |}).

Definition log (c : call) : M unit := fun s =>
  (Returns tt, {| globals := globals s;
                  trace := trace s ++ [(g_active (globals s), c)];
                  blynk_calls := blynk_calls s |}).

Definition set_active (b : bool) : M unit :=
  g ← get_globals;
  put_globals {| g_active := b; g_lastBolusTime := g_lastBolusTime g;
                 g_cycleTimer := g_cycleTimer g; g_cycleCount := g_cycleCount g |}.

Definition set_lastBolusTime (t : Z) : M unit :=
  g ← get_globals;
  put_globals {| g_active := g_active g; g_lastBolusTime := Some t;
                 g_cycleTimer := g_cycleTimer g; g_cycleCount := g_cycleCount g |}.

Definition set_cycleTimer (delay : Z) : M unit :=
  g ← get_globals;
  put_globals {| g_active := g_active g; g_lastBolusTime := g_lastBolusTime g;
                 g_cycleTimer := Some delay; g_cycleCount := g_cycleCount g |}.

Definition incr_cycleCount : M unit :=
  g ← get_globals;
  put_globals {| g_active := g_active g; g_lastBolusTime := g_lastBolusTime g;
                 g_cycleTimer := g_cycleTimer g; g_cycleCount := g_cycleCount g + 1 |}.

(** The calls a cycle has logged, without the guard annotation. *)
Definition calls (s : State) : list call := map snd (trace s).

Definition is_Timer_start (c : call) : bool :=
  match c with Timer_start _ => true | _ => false end.

(** How many timers were started. *)
Definition timers_started (s : State) : nat :=
  length (filter (fun c => is_Timer_start c = true) (calls s)).

(** ** The severity tier a run displays

    The gateway has no severity value of its own: the tier shows as the
    colour given to the BGL gauge (virtual pin [VPIN_SENSOR]). *)

Inductive severity := normal | pre_alert | alert | suspended | sensor_fault.

Definition severity_color (t : severity) : string :=
  match t with
  | normal => BLYNK_GREEN
  | pre_alert => BLYNK_YELLOW
  | alert => BLYNK_RED
  | suspended => BLYNK_BLUE
  | sensor_fault => BLYNK_WHITE
  end.

Definition color_severity (c : string) : option severity :=
  if String.eqb c BLYNK_WHITE then Some sensor_fault
  else if String.eqb c BLYNK_BLUE then Some suspended
  else if String.eqb c BLYNK_RED then Some alert
  else if String.eqb c BLYNK_YELLOW then Some pre_alert
  else if String.eqb c BLYNK_GREEN then Some normal
  else None.

(** The colour property set on a pin by a call, if the call sets one. *)
Definition color_set_on (pin : Z) (c : call) : option string :=
  match c with
  | set_property p prop v =>
      if (p =? pin) && String.eqb prop "color" then Some v else None
  | _ => None
  end.

(** The first colour a list of calls gives to a pin. *)
Definition first_color (pin : Z) (cs : list call) : option string :=
  head (omap (color_set_on pin) cs).

Definition displayed_severity (cs : list call) : option severity :=
  first_color VPIN_SENSOR cs ≫= color_severity.

(** The conditions of the regular-reading branch, in the words of the
    specification. *)
Definition suspend_condition (d : LiveData) : bool :=
  alertSuspend (pumpAlert d) || alertSuspendLow (pumpAlert d).

Definition alert_condition (cfg : Settings) (d : LiveData) : bool :=
  (sensorBGL d <? bgl_low_val cfg) || (sensorBGL d >? bgl_high_val cfg)
  || alertOnLow (pumpAlert d) || alertOnHigh (pumpAlert d).

Definition pre_alert_condition (cfg : Settings) (d : LiveData) : bool :=
  (sensorBGL d <? bgl_pre_low_val cfg) || (sensorBGL d >? bgl_pre_high_val cfg)
  || alertBeforeLow (pumpAlert d) || alertBeforeHigh (pumpAlert d).

(** The ordered rule list, evaluated top to bottom, first match wins; when
    no rule matches the tier is [normal]. *)
Definition severity_rules (cfg : Settings) : list ((LiveData -> bool) * severity) :=
  [ (suspend_condition, suspended);
    (alert_condition cfg, alert);
    (pre_alert_condition cfg, pre_alert) ].

Fixpoint first_match (rules : list ((LiveData -> bool) * severity)) (d : LiveData) : severity :=
  match rules with
  | [] => normal
  | (cond, tier) :: rest => if cond d then tier else first_match rest d
  end.

(** The three-band policy of the battery and reservoir bars. *)
Inductive band := critical | warning | fine.

Definition band_color (b : band) : string :=
  match b with
  | critical => BLYNK_RED
  | warning => BLYNK_YELLOW
  | fine => BLYNK_GREEN
  end.

(** ** A sample interpretation of the built-ins

    ASCII decimal numerals, UTC wall-clock time, thousandths for floats; used
    to run the model on concrete inputs. *)

Definition dec (n : Z) : string := NilZero.string_of_int (Z.to_int n).

Definition two_digits (n : Z) : string := if n <? 10 then "0" +:+ dec n else dec n.

Definition sample_builtins : Builtins :=
  {| py_int := fun s => Z.of_int <$> NilZero.int_of_string s;
     str_float := fun x =>
       let m := Qfloor (x * inject_Z 1000) in
       dec (m / 1000) +:+ "." +:+ dec (m mod 1000);
     str_strip := fun s => strip " " s;
     strftime_HM := fun t =>
       two_digits ((t / 3600000000) mod 24) +:+ ":" +:+ two_digits ((t / 60000000) mod 60);
     strftime_s := fun t => t / 1000000 |}.

Definition no_alert : PumpAlert :=
  {| alertSuspend := false; alertSuspendLow := false; alertOnLow := false;
     alertOnHigh := false; alertBeforeLow := false; alertBeforeHigh := false |}.

(** A reading of 105 taken at 12:00:00 UTC on 2020-11-09, pump clock 7 s late. *)
Definition sample_data : LiveData :=
  {| sensorBGL := 105;
     sensorBGLTimestamp := 1604923200000000;
     sensorCalMinutesRemaining := 300;
     trendArrow := "No arrows";
     pumpTime := 1604923260000000;
     pumpTimeDrift := 7000000;
     activeInsulin := 13 # 10;
     lastBolusAmount := 5 # 2;
     lastBolusTime := 1604922000000000;
     insulinUnitsRemaining := 40;
     batteryLevelPercentage := 60;
     sensorBatteryLevelPercentage := 45;
     pumpAlert := no_alert |}.

Definition with_sensorBGL (bgl : Z) (d : LiveData) : LiveData :=
  {| sensorBGL := bgl;
     sensorBGLTimestamp := sensorBGLTimestamp d;
     sensorCalMinutesRemaining := sensorCalMinutesRemaining d;
     trendArrow := trendArrow d;
     pumpTime := pumpTime d;
     pumpTimeDrift := pumpTimeDrift d;
     activeInsulin := activeInsulin d;
     lastBolusAmount := lastBolusAmount d;
     lastBolusTime := lastBolusTime d;
     insulinUnitsRemaining := insulinUnitsRemaining d;
     batteryLevelPercentage := batteryLevelPercentage d;
     sensorBatteryLevelPercentage := sensorBatteryLevelPercentage d;
     pumpAlert := pumpAlert d |}.

Definition with_pumpAlert (a : PumpAlert) (d : LiveData) : LiveData :=
  {| sensorBGL := sensorBGL d;
     sensorBGLTimestamp := sensorBGLTimestamp d;
     sensorCalMinutesRemaining := sensorCalMinutesRemaining d;
     trendArrow := trendArrow d;
     pumpTime := pumpTime d;
     pumpTimeDrift := pumpTimeDrift d;
     activeInsulin := activeInsulin d;
     lastBolusAmount := lastBolusAmount d;
     lastBolusTime := lastBolusTime d;
     insulinUnitsRemaining := insulinUnitsRemaining d;
     batteryLevelPercentage := batteryLevelPercentage d;
     sensorBatteryLevelPercentage := sensorBatteryLevelPercentage d;
     pumpAlert := a |}.

Definition sample_raw : RawConfig :=
  {| raw_blynk_server := Some "blynk-cloud.com";
     raw_blynk_token := Some "0123456789abcdef";
     raw_blynk_heartbeat := Some "10";
     raw_nightscout_server := Some "https://ns.example.org";
     raw_nightscout_api_secret := Some "secret";
     raw_bgl_low := Some "70";
     raw_bgl_pre_low := Some "80";
     raw_bgl_pre_high := Some "180";
     raw_bgl_high := Some "250" |}.

Definition sample_cfg : Settings :=
  {| blynk_server := "blynk-cloud.com";
     blynk_token := "0123456789abcdef";
     blynk_heartbeat := 10;
     nightscout_server := "https://ns.example.org";
     nightscout_api_secret := "secret";
     bgl_low_val := 70;
     bgl_pre_low_val := 80;
     bgl_pre_high_val := 180;
     bgl_high_val := 250 |}.

(** A cycle in which every collaborator behaves: the first read returns
    [sample_data], 4 min 10 s after the reading was taken. *)
Definition sample_world : World :=
  {| driver_read := fun _ => read_returns (Some sample_data);
     blynk_raises := fun _ => false;
     nightscout_raises := false;
     timer_raises := false;
     now_naive := 1604923450000000;
     time_time := 1604923450;
     now_pump_tz := 1604923450000000 |}.

Definition initial_globals : Globals :=
  {| g_active := false; g_lastBolusTime := None; g_cycleTimer := None; g_cycleCount := 0 |}.

Definition initial_state : State :=
  {| globals := initial_globals; trace := []; blynk_calls := 0 |}.

(** Sample values for the two attributes [sensor_codes.py] does not define. *)
Definition sample_SENSOR_LOST : Z := 0x030D.
Definition sample_SENSOR_LOST_STR : string := "Sensor lost".

(** A cycle that differs from [sample_world] in one respect: starting the
    timer thread raises. *)
Definition timer_failure_world : World :=
  {| driver_read := driver_read sample_world;
     blynk_raises := blynk_raises sample_world;
     nightscout_raises := nightscout_raises sample_world;
     timer_raises := true;
     now_naive := now_naive sample_world;
     time_time := time_time sample_world;
     now_pump_tz := now_pump_tz sample_world |}.

(** A cycle in which the upload ends 5 s after the next reading was due
    (the corrected reading time is 12:00:07, the next reading is due at
    12:05:07, the clock reads 12:05:12). *)
Definition late_world : World :=
  {| driver_read := driver_read sample_world;
     blynk_raises := blynk_raises sample_world;
     nightscout_raises := nightscout_raises sample_world;
     timer_raises := false;
     now_naive := 1604923510000000;
     time_time := 1604923510;
     now_pump_tz := 1604923512000000 |}.

(** A configuration file that sets both upper thresholds to zero. *)
Definition zero_high_raw : RawConfig :=
  {| raw_blynk_server := raw_blynk_server sample_raw;
     raw_blynk_token := raw_blynk_token sample_raw;
     raw_blynk_heartbeat := raw_blynk_heartbeat sample_raw;
     raw_nightscout_server := raw_nightscout_server sample_raw;
     raw_nightscout_api_secret := raw_nightscout_api_secret sample_raw;
     raw_bgl_low := raw_bgl_low sample_raw;
     raw_bgl_pre_low := raw_bgl_pre_low sample_raw;
     raw_bgl_pre_high := Some "0";
     raw_bgl_high := Some "0" |}.

(** The same file with the upper thresholds left as text that is no number. *)
Definition malformed_high_raw : RawConfig :=
  {| raw_blynk_server := raw_blynk_server sample_raw;
     raw_blynk_token := raw_blynk_token sample_raw;
     raw_blynk_heartbeat := raw_blynk_heartbeat sample_raw;
     raw_nightscout_server := raw_nightscout_server sample_raw;
     raw_nightscout_api_secret := raw_nightscout_api_secret sample_raw;
     raw_bgl_low := raw_bgl_low sample_raw;
     raw_bgl_pre_low := raw_bgl_pre_low sample_raw;
     raw_bgl_pre_high := Some "none";
     raw_bgl_high := Some "off  # disabled" |}.

Definition zero_high_cfg : Settings :=
  {| blynk_server := blynk_server sample_cfg;
     blynk_token := blynk_token sample_cfg;
     blynk_heartbeat := blynk_heartbeat sample_cfg;
     nightscout_server := nightscout_server sample_cfg;
     nightscout_api_secret := nightscout_api_secret sample_cfg;
     bgl_low_val := 70;
     bgl_pre_low_val := 80;
     bgl_pre_high_val := 1000;
     bgl_high_val := 1000 |}.

(** Every option the gateway reads is present in the file. *)
Definition all_options_present (raw : RawConfig) : Prop :=
  is_Some (raw_blynk_server raw) /\ is_Some (raw_blynk_token raw)
  /\ is_Some (raw_blynk_heartbeat raw)
  /\ is_Some (raw_nightscout_server raw) /\ is_Some (raw_nightscout_api_secret raw)
  /\ is_Some (raw_bgl_low raw) /\ is_Some (raw_bgl_pre_low raw)
  /\ is_Some (raw_bgl_pre_high raw) /\ is_Some (raw_bgl_high raw).

(** The rescheduling delay in the words of the specification: the delay is
    [(nextWake - now) + 10] seconds, replaced by [RETRY_INTERVAL] when that
    is negative. *)
Definition spec_delay (sensorTimestamp now : datetime) : Z :=
  let nextWake := sensorTimestamp + timedelta_seconds UPDATE_INTERVAL in
  let delay := int_total_seconds (nextWake - now) + 10 in
  if delay <? 0 then RETRY_INTERVAL else delay.

(** How many of the logged calls start a timer. *)
Definition timers_in (l : list (bool * call)) : nat :=
  length (filter (fun c => is_Timer_start c = true) (map snd l)).

(** ** Logs of the read loop *)

Definition read_error_msg : string :=
  "Unexpected ERROR occured while reading live data".

(** What [k] failed reads, each followed by a retry, log: the error and the
    sleep before the next attempt. *)
Fixpoint retry_log (k : nat) : list call :=
  match k with
  | O => []
  | S k' => syslog read_error_msg :: sleep RETRY_DELAY :: retry_log k'
  end.

(** What [n] failed reads log when no attempt is left after the last one. *)
Definition exhausted_log (n : nat) : list call :=
  match n with
  | O => []
  | S m => retry_log m ++ [syslog read_error_msg]
  end.

Definition is_sleep (c : call) : bool :=
  match c with sleep _ => true | _ => false end.

(** A cycle whose first driver read raises and whose second returns. *)
Definition flaky_world : World :=
  {| driver_read := fun attempt =>
       match attempt with
       | O => read_raises
       | _ => read_returns (Some sample_data)
       end;
     blynk_raises := blynk_raises sample_world;
     nightscout_raises := nightscout_raises sample_world;
     timer_raises := timer_raises sample_world;
     now_naive := now_naive sample_world;
     time_time := time_time sample_world;
     now_pump_tz := now_pump_tz sample_world |}.

(** A cycle in which the pump is out of range: every driver read raises. *)
Definition dead_world : World :=
  {| driver_read := fun _ => read_raises;
     blynk_raises := blynk_raises sample_world;
     nightscout_raises := nightscout_raises sample_world;
     timer_raises := timer_raises sample_world;
     now_naive := now_naive sample_world;
     time_time := time_time sample_world;
     now_pump_tz := now_pump_tz sample_world |}.

(** ** Observations on strings *)

Definition first_char (s : string) : option ascii :=
  match s with
  | EmptyString => None
  | String a _ => Some a
  end.

Fixpoint last_char (s : string) : option ascii :=
  match s with
  | EmptyString => None
  | String a EmptyString => Some a
  | String _ s' => last_char s'
  end.

(** [c] occurs in [s]. *)
Definition occurs (c : ascii) (s : string) : Prop := In c (list_ascii_of_string s).

(** ** Further observations *)

(** A call on the Blynk client. *)
Definition is_blynk_call (c : call) : bool :=
  match c with
  | virtual_write _ _ | set_property _ _ _ => true
  | _ => false
  end.

(** The tiers in increasing order of precedence. *)
Definition rank (t : severity) : nat :=
  match t with
  | normal => 0
  | pre_alert => 1
  | alert => 2
  | suspended => 3
  | sensor_fault => 4
  end.

(** Every flag set in [a] is set in [a']. *)
Definition flags_le (a a' : PumpAlert) : Prop :=
  (alertSuspend a = true -> alertSuspend a' = true)
  /\ (alertSuspendLow a = true -> alertSuspendLow a' = true)
  /\ (alertOnLow a = true -> alertOnLow a' = true)
  /\ (alertOnHigh a = true -> alertOnHigh a' = true)
  /\ (alertBeforeLow a = true -> alertBeforeLow a' = true)
  /\ (alertBeforeHigh a = true -> alertBeforeHigh a' = true).

(** *** The connection handlers

    The global [is_connected] and the notices written to syslog. *)

Record Link := {
  is_connected : bool;
  notices : list string
}.

Definition connect_handler (l : Link) : Link :=
  if negb (is_connected l)
  then {| is_connected := true;
          notices := notices l ++ ["Connected to cloud server"%string] |}
  else l.

Definition disconnect_handler (l : Link) : Link :=
  if is_connected l
  then {| is_connected := false;
          notices := notices l ++ ["Disconnected from cloud server"%string] |}
  else l.

Inductive link_event := on_connect | on_disconnect.

Definition handle_event (l : Link) (e : link_event) : Link :=
  match e with
  | on_connect => connect_handler l
  | on_disconnect => disconnect_handler l
  end.

(** The state at start-up: [is_connected = False], nothing logged. *)
Definition initial_link : Link := {| is_connected := false; notices := [] |}.

(** The notice with number [i] of an alternating sequence that starts with a
    connection. *)
Definition alternating_notice (i : nat) : string :=
  if Nat.even i then "Connected to cloud server" else "Disconnected from cloud server".

Definition alternating (n : nat) : list string := map alternating_notice (seq 0 n).

(** ** The gateway proper *)

Section Gateway.

Context (B : Builtins).

(** [sensor_codes.py] has no [SENSOR_LOST] and no [SENSOR_LOST_STR]
    attribute although [ddguard.py] reads both; they are parameters of the
    development. *)
Variable SENSOR_LOST : Z.
Variable SENSOR_LOST_STR : string.

Definition sensor_exception_codes : gmap Z string :=
  dict_literal
    [ (SENSOR_OK, SENSOR_OK_STR);
      (SENSOR_INIT, SENSOR_INIT_STR);
      (SENSOR_CAL_NEEDED, SENSOR_CAL_NEEDED_STR);
      (SENSOR_ERROR, SENSOR_ERROR_STR);
      (SENSOR_CAL_ERROR, SENSOR_CAL_ERROR_STR);
      (SENSOR_CHANGE_SENSOR, SENSOR_CHANGE_SENSOR_STR);
      (SENSOR_END_OF_LIFE, SENSOR_END_OF_LIFE_STR);
      (SENSOR_NOT_READY, SENSOR_NOT_READY_STR);
      (SENSOR_READING_HIGH, SENSOR_READING_HIGH_STR);
      (SENSOR_READING_LOW, SENSOR_READING_LOW_STR);
      (SENSOR_CAL_PENDING, SENSOR_CAL_PENDING_STR);
      (SENSOR_CHANGE_CAL_ERROR, SENSOR_CHANGE_CAL_ERROR_STR);
      (SENSOR_TIME_UNKNOWN, SENSOR_TIME_UNKNOWN_STR);
      (SENSOR_LOST, SENSOR_LOST_STR) ].

Variable cfg : Settings.
Variable w : World.

(** A call on the Blynk client: it raises when the oracle says so, and is
    logged when it completes. *)
Definition blynk (c : call) : M unit := fun s =>
  let s' := {| globals := globals s; trace := trace s;
               blynk_calls := S (blynk_calls s) |} in
  if blynk_raises w (blynk_calls s) then (Raises, s') else log c s'.

(** *** blynk_upload: sensor data *)

Definition upload_sensor (data : LiveData) : M unit :=
  match sensor_exception_codes !! sensorBGL data with
  | Some code_str =>
      (* Sensor exception occured *)
      blynk (virtual_write VPIN_SENSOR VNone);;
      blynk (set_property VPIN_SENSOR "color" BLYNK_WHITE);;
      blynk (virtual_write VPIN_ARROWS
               (VStr ("--" +:+ " / " +:+ str_float B (activeInsulin data))));;
      blynk (virtual_write VPIN_STATUS
               (VStr (strftime_HM B (now_naive w) +:+ " - " +:+ code_str)));;
      blynk (set_property VPIN_STATUS "color" BLYNK_RED)
  | None =>
      (* Regular BGL data *)
      blynk (virtual_write VPIN_SENSOR (VInt (sensorBGL data)));;
      (if alertSuspend (pumpAlert data) || alertSuspendLow (pumpAlert data)
       then blynk (set_property VPIN_SENSOR "color" BLYNK_BLUE)
       else if (sensorBGL data <? bgl_low_val cfg) || (sensorBGL data >? bgl_high_val cfg)
               || alertOnLow (pumpAlert data) || alertOnHigh (pumpAlert data)
       then blynk (set_property VPIN_SENSOR "color" BLYNK_RED)
       else if (sensorBGL data <? bgl_pre_low_val cfg) || (sensorBGL data >? bgl_pre_high_val cfg)
               || alertBeforeLow (pumpAlert data) || alertBeforeHigh (pumpAlert data)
       then blynk (set_property VPIN_SENSOR "color" BLYNK_YELLOW)
       else blynk (set_property VPIN_SENSOR "color" BLYNK_GREEN));;
      blynk (virtual_write VPIN_ARROWS
               (VStr (trendArrow data +:+ " / " +:+ str_float B (activeInsulin data))));;
      let calTime :=
        "Cal at " +:+ strftime_HM B (sensorBGLTimestamp data
                                     + timedelta_minutes (sensorCalMinutesRemaining data)) in
      blynk (virtual_write VPIN_STATUS
               (VStr ("Updated " +:+ strftime_HM B (sensorBGLTimestamp data)
                      +:+ " - " +:+ calTime)));;
      blynk (set_property VPIN_STATUS "color" BLYNK_GREEN)
  end.

(** *** blynk_upload: battery bar *)

Definition upload_battery (data : LiveData) : M unit :=
  g ← get_globals;
  let '(data_batt, label_batt) :=
    if g_cycleCount g mod 2 =? 0
    then (batteryLevelPercentage data, "PUMP BATTERY %")
    else (sensorBatteryLevelPercentage data, "SENSOR BATTERY %") in
  blynk (set_property VPIN_BATTERY "label" label_batt);;
  blynk (virtual_write VPIN_BATTERY (VInt data_batt));;
  if data_batt <=? 25 then blynk (set_property VPIN_BATTERY "color" BLYNK_RED)
  else if data_batt <=? 50 then blynk (set_property VPIN_BATTERY "color" BLYNK_YELLOW)
  else blynk (set_property VPIN_BATTERY "color" BLYNK_GREEN).

(** *** blynk_upload: reservoir bar *)

Definition upload_reservoir (data : LiveData) : M unit :=
  blynk (virtual_write VPIN_UNITS (VInt (py_round (insulinUnitsRemaining data))));;
  if Qle_bool (insulinUnitsRemaining data) (inject_Z 25)
  then blynk (set_property VPIN_UNITS "color" BLYNK_RED)
  else if Qle_bool (insulinUnitsRemaining data) (inject_Z 75)
  then blynk (set_property VPIN_UNITS "color" BLYNK_YELLOW)
  else blynk (set_property VPIN_UNITS "color" BLYNK_GREEN).

(** *** blynk_upload: active insulin / last bolus graph *)

Definition upload_bolus (data : LiveData) : M unit :=
  g ← get_globals;
  let t := strftime_s B (lastBolusTime data) in
  if bool_decide (Some t ≠ g_lastBolusTime g)
  then
    set_lastBolusTime t;;
    (* Check if last bolus time is recent *)
    if time_time w - t <? 2 * UPDATE_INTERVAL
    then blynk (virtual_write VPIN_LASTBOLUS (VFloat (lastBolusAmount data)))
    else mret tt
  else blynk (virtual_write VPIN_ACTINS (VFloat (activeInsulin data))).

Definition blynk_upload (data : option LiveData) : M unit :=
  match data with
  | Some data =>
      upload_sensor data;;
      upload_battery data;;
      upload_reservoir data;;
      upload_bolus data
  | None =>
      log (syslog "Unable to get data from pump");;
      blynk (set_property VPIN_STATUS "color" BLYNK_RED)
  end.

(** *** upload_live_data *)

(** One call of [cnl24driverlib.readLiveData]. *)
Definition cnl24_readLiveData (attempt : nat) : M (option LiveData) := fun s =>
  match driver_read w attempt with
  | read_returns data => (log readLiveData;; mret data) s
  | read_raises => (Raises, s)
  end.

(** The [while hasFailed and numRetries > 0] loop; the result is the value
    of [liveData] when the loop ends.  A read that returns ends the loop
    ([hasFailed = False]); a read that raises logs the error, sets
    [liveData = None], decrements [numRetries] and sleeps if a retry is
    left. *)
Fixpoint read_loop (numRetries attempt : nat) : M (option LiveData) :=
  match numRetries with
  | O => mret None
  | S n =>
      r ← try_except
            (liveData ← cnl24_readLiveData attempt; mret (Some liveData))
            (log (syslog "Unexpected ERROR occured while reading live data");;
             mret None);
      match r with
      | Some liveData => mret liveData
      | None =>
          (if (0 <? n)%nat then log (sleep RETRY_DELAY) else mret tt);;
          read_loop n (S attempt)
      end
  end.

(** "Account for pump RTC drift": the in-place update of [liveData]. *)
Definition account_for_drift (liveData : LiveData) : LiveData :=
  {| sensorBGL := sensorBGL liveData;
     sensorBGLTimestamp :=
       if bool_decide (sensorBGL liveData ≠ SENSOR_LOST)
       then sensorBGLTimestamp liveData + pumpTimeDrift liveData
       else sensorBGLTimestamp liveData;
     sensorCalMinutesRemaining := sensorCalMinutesRemaining liveData;
     trendArrow := trendArrow liveData;
     pumpTime := pumpTime liveData + pumpTimeDrift liveData;
     pumpTimeDrift := pumpTimeDrift liveData;
     activeInsulin := activeInsulin liveData;
     lastBolusAmount := lastBolusAmount liveData;
     lastBolusTime := lastBolusTime liveData;
     insulinUnitsRemaining := insulinUnitsRemaining liveData;
     batteryLevelPercentage := batteryLevelPercentage liveData;
     sensorBatteryLevelPercentage := sensorBatteryLevelPercentage liveData;
     pumpAlert := pumpAlert liveData |}.

Definition nightscout (liveData : option LiveData) : M unit := fun s =>
  if nightscout_raises w then (Raises, s) else log (nightscout_upload liveData) s.

(** "Calculate time until next reading". *)
Definition nextReading (liveData : LiveData) : datetime :=
  sensorBGLTimestamp liveData + timedelta_seconds UPDATE_INTERVAL.

Definition tmoSeconds (liveData : option LiveData) : Z :=
  match liveData with
  | Some liveData =>
      let tmo := int_total_seconds (nextReading liveData - now_pump_tz w) in
      if tmo <? 0 then RETRY_INTERVAL else tmo
  | None => RETRY_INTERVAL
  end.

(** [cycleTimer = threading.Timer(delay, upload_live_data)] followed by
    [cycleTimer.start()]. *)
Definition Timer_start_call (delay : Z) : M unit := fun s =>
  if timer_raises w then (Raises, s) else log (Timer_start delay) s.

Definition start_timer (delay : Z) : M unit :=
  set_cycleTimer delay;;
  Timer_start_call delay.

Definition upload_live_data : M unit :=
  g ← get_globals;
  (* Guard against multiple threads *)
  if g_active g then mret tt
  else
    set_active true;;
    fetched ← read_loop MAX_RETRIES_AT_FAILURE 0;
    let liveData := account_for_drift <$> fetched in
    (if blynk_enabled cfg
     then try_except (blynk_upload liveData) (log (syslog "Blynk upload ERROR"))
     else mret tt);;
    (if nightscout_enabled cfg
     then try_except (nightscout liveData) (log (syslog "Nightscout upload ERROR"))
     else mret tt);;
    start_timer (tmoSeconds liveData + 10);;
    incr_cycleCount;;
    set_active false.

(** ** Auxiliary definitions *)

(** The state after a call has been logged. *)
Definition logged (c : call) (s : State) : State :=
  {| globals := globals s;
     trace := trace s ++ [(g_active (globals s), c)];
     blynk_calls := S (blynk_calls s) |}.

(** The table as built by the dict literal: the entry of [SENSOR_LOST] is
    written last, over the thirteen entries of [sensor_codes.py]. *)
Definition defined_codes : gmap Z string :=
  dict_literal
    [ (SENSOR_OK, SENSOR_OK_STR);
      (SENSOR_INIT, SENSOR_INIT_STR);
      (SENSOR_CAL_NEEDED, SENSOR_CAL_NEEDED_STR);
      (SENSOR_ERROR, SENSOR_ERROR_STR);
      (SENSOR_CAL_ERROR, SENSOR_CAL_ERROR_STR);
      (SENSOR_CHANGE_SENSOR, SENSOR_CHANGE_SENSOR_STR);
      (SENSOR_END_OF_LIFE, SENSOR_END_OF_LIFE_STR);
      (SENSOR_NOT_READY, SENSOR_NOT_READY_STR);
      (SENSOR_READING_HIGH, SENSOR_READING_HIGH_STR);
      (SENSOR_READING_LOW, SENSOR_READING_LOW_STR);
      (SENSOR_CAL_PENDING, SENSOR_CAL_PENDING_STR);
      (SENSOR_CHANGE_CAL_ERROR, SENSOR_CHANGE_CAL_ERROR_STR);
      (SENSOR_TIME_UNKNOWN, SENSOR_TIME_UNKNOWN_STR) ].

(** The thirteen sensor exceptions, each with its display string. *)
Definition enumerated_exceptions : list (Z * string) :=
  [ (SENSOR_INIT, SENSOR_INIT_STR);
    (SENSOR_CAL_NEEDED, SENSOR_CAL_NEEDED_STR);
    (SENSOR_CAL_ERROR, SENSOR_CAL_ERROR_STR);
    (SENSOR_ERROR, SENSOR_ERROR_STR);
    (SENSOR_CHANGE_SENSOR, SENSOR_CHANGE_SENSOR_STR);
    (SENSOR_END_OF_LIFE, SENSOR_END_OF_LIFE_STR);
    (SENSOR_NOT_READY, SENSOR_NOT_READY_STR);
    (SENSOR_READING_HIGH, SENSOR_READING_HIGH_STR);
    (SENSOR_READING_LOW, SENSOR_READING_LOW_STR);
    (SENSOR_CAL_PENDING, SENSOR_CAL_PENDING_STR);
    (SENSOR_CHANGE_CAL_ERROR, SENSOR_CHANGE_CAL_ERROR_STR);
    (SENSOR_TIME_UNKNOWN, SENSOR_TIME_UNKNOWN_STR);
    (SENSOR_LOST, SENSOR_LOST_STR) ].

(** The value of [liveData] when the read loop ends, as a function of the
    driver outcomes: the first read that returns decides; [None] when all
    [numRetries] reads raise. *)
Fixpoint fetched (numRetries attempt : nat) : option LiveData :=
  match numRetries with
  | O => None
  | S n =>
      match driver_read w attempt with
      | read_returns data => data
      | read_raises => fetched n (S attempt)
      end
  end.

(** A logged call made while the guard was set and that starts no timer. *)
Definition guarded_no_timer (e : bool * call) : Prop :=
  e.1 = true /\ is_Timer_start e.2 = false.

(** [m], started with the guard set, ends with an outcome satisfying
    [post], leaves the guard set and the cycle counter unchanged, and logs
    only guarded calls, none of which starts a timer. *)
Definition runs_quietly {A} (m : M A) (post : result A -> Prop) : Prop :=
  forall s, g_active (globals s) = true ->
    exists r s' new,
      m s = (r, s')
      /\ post r
      /\ g_active (globals s') = true
      /\ g_cycleCount (globals s') = g_cycleCount (globals s)
      /\ trace s' = trace s ++ new
      /\ Forall guarded_no_timer new.

Definition returned {A} (r : result A) : Prop := exists a, r = Returns a.

Definition returned_value {A} (a : A) (r : result A) : Prop := r = Returns a.

(** What the Nightscout step of a cycle logs. *)
Definition nightscout_step_log (liveData : option LiveData) : list (bool * call) :=
  if nightscout_enabled cfg
  then if nightscout_raises w
       then [(true, syslog "Nightscout upload ERROR")]
       else [(true, nightscout_upload liveData)]
  else [].

(** ** Running the model *)

Example read_sample_config : read_config sample_builtins sample_raw = Some sample_cfg.
Proof. reflexivity. Qed.

Lemma bind_returns {A C} (m : M A) (f : A -> M C) s a s' :
  m s = (Returns a, s') -> (m ≫= f) s = f a s'.
Proof. intros E. unfold mbind, M_bind. now rewrite E. Qed.

Lemma bind_raises {A C} (m : M A) (f : A -> M C) s s' :
  m s = (Raises, s') -> (m ≫= f) s = (Raises, s').
Proof. intros E. unfold mbind, M_bind. now rewrite E. Qed.

Lemma blynk_completes c s :
  blynk_raises w (blynk_calls s) = false -> blynk c s = (Returns tt, logged c s).
Proof. intros E. unfold blynk. now rewrite E. Qed.

Lemma calls_logged c s : calls (logged c s) = calls s ++ [c].
Proof. unfold calls, logged; simpl. now rewrite map_app. Qed.

(** When no Blynk call raises, a sequence of Blynk calls is run by
    rewriting with [blynk_completes]. *)
Ltac run_blynk Hok :=
  repeat first
    [ rewrite (blynk_completes _ _ (Hok _))
    | erewrite bind_returns by (apply blynk_completes, Hok) ].

Lemma sensor_exception_codes_eq :
  sensor_exception_codes = <[SENSOR_LOST := SENSOR_LOST_STR]> defined_codes.
Proof. reflexivity. Qed.

Lemma lookup_SENSOR_LOST : sensor_exception_codes !! SENSOR_LOST = Some SENSOR_LOST_STR.
Proof. rewrite sensor_exception_codes_eq. apply lookup_insert_eq. Qed.

Lemma lookup_other_code k :
  k ≠ SENSOR_LOST -> sensor_exception_codes !! k = defined_codes !! k.
Proof. intros Hk. rewrite sensor_exception_codes_eq. now apply lookup_insert_ne. Qed.

(** ** The sensor-exception branch *)

Lemma exception_branch data s code_str :
  sensor_exception_codes !! sensorBGL data = Some code_str ->
  (forall n, blynk_raises w n = false) ->
  exists s',
    upload_sensor data s = (Returns tt, s')
    /\ globals s' = globals s
    /\ calls s' = calls s ++
         [ virtual_write VPIN_SENSOR VNone;
           set_property VPIN_SENSOR "color" BLYNK_WHITE;
           virtual_write VPIN_ARROWS
             (VStr ("--" +:+ " / " +:+ str_float B (activeInsulin data)));
           virtual_write VPIN_STATUS
             (VStr (strftime_HM B (now_naive w) +:+ " - " +:+ code_str));
           set_property VPIN_STATUS "color" BLYNK_RED ].
Proof.
  intros Hcode Hok. unfold upload_sensor. rewrite Hcode.
  run_blynk Hok.
  eexists; split; [reflexivity|]. split; [reflexivity|].
  rewrite !calls_logged, <- !app_assoc. reflexivity.
Qed.

Lemma enumerated_lookup code code_str :
  (code, code_str) ∈ enumerated_exceptions ->
  NoDup (enumerated_exceptions.*1) ->
  sensor_exception_codes !! code = Some code_str.
Proof.
  intros Hin Hnd.
  change (enumerated_exceptions.*1)
    with ([SENSOR_INIT; SENSOR_CAL_NEEDED; SENSOR_CAL_ERROR; SENSOR_ERROR;
           SENSOR_CHANGE_SENSOR; SENSOR_END_OF_LIFE; SENSOR_NOT_READY;
           SENSOR_READING_HIGH; SENSOR_READING_LOW; SENSOR_CAL_PENDING;
           SENSOR_CHANGE_CAL_ERROR; SENSOR_TIME_UNKNOWN] ++ [SENSOR_LOST]) in Hnd.
  apply NoDup_app in Hnd as (_ & Hfresh & _).
  unfold enumerated_exceptions in Hin.
  repeat (apply elem_of_cons in Hin as [[= -> ->]|Hin]).
  14: now apply elem_of_nil in Hin.
  13: apply lookup_SENSOR_LOST.
  all: rewrite lookup_other_code; [reflexivity|].
  all: intros Heq; apply (Hfresh SENSOR_LOST);
    [rewrite <- Heq | ]; apply list_elem_of_In; simpl; tauto.
Qed.

(** C1: a reading equal to one of the thirteen enumerated sensor-exception
    codes is shown as a sensor fault, whatever the alert flags are: the
    gauge is blanked and coloured white, the trend line shows the
    placeholder with the active insulin, and the status line shows the
    time followed by the display string of the code, in red.  The thirteen
    codes are assumed pairwise distinct, and the Blynk calls to complete. *)
Theorem sensor_exception_display data s code code_str :
  (code, code_str) ∈ enumerated_exceptions ->
  NoDup (enumerated_exceptions.*1) ->
  sensorBGL data = code ->
  (forall n, blynk_raises w n = false) ->
  exists s' shown,
    upload_sensor data s = (Returns tt, s')
    /\ globals s' = globals s
    /\ calls s' = calls s ++ shown
    /\ shown =
         [ virtual_write VPIN_SENSOR VNone;
           set_property VPIN_SENSOR "color" BLYNK_WHITE;
           virtual_write VPIN_ARROWS
             (VStr ("--" +:+ " / " +:+ str_float B (activeInsulin data)));
           virtual_write VPIN_STATUS
             (VStr (strftime_HM B (now_naive w) +:+ " - " +:+ code_str));
           set_property VPIN_STATUS "color" BLYNK_RED ]
    /\ displayed_severity shown = Some sensor_fault.
Proof.
  intros Hin Hnd Hbgl Hok.
  pose proof (enumerated_lookup code code_str Hin Hnd) as Hcode.
  rewrite <- Hbgl in Hcode.
  destruct (exception_branch data s code_str Hcode Hok) as (s' & Hrun & Hg & Hcalls).
  exists s'. eexists. repeat split; eauto.
Qed.

(** ** The regular-reading branch *)

Lemma regular_branch data s :
  sensor_exception_codes !! sensorBGL data = None ->
  (forall n, blynk_raises w n = false) ->
  exists s',
    upload_sensor data s = (Returns tt, s')
    /\ globals s' = globals s
    /\ calls s' = calls s ++
         [ virtual_write VPIN_SENSOR (VInt (sensorBGL data));
           set_property VPIN_SENSOR "color"
             (severity_color (first_match (severity_rules cfg) data));
           virtual_write VPIN_ARROWS
             (VStr (trendArrow data +:+ " / " +:+ str_float B (activeInsulin data)));
           virtual_write VPIN_STATUS
             (VStr ("Updated " +:+ strftime_HM B (sensorBGLTimestamp data) +:+ " - "
                    +:+ ("Cal at "
                         +:+ strftime_HM B
                               (sensorBGLTimestamp data
                                + timedelta_minutes (sensorCalMinutesRemaining data)))));
           set_property VPIN_STATUS "color" BLYNK_GREEN ].
Proof.
  intros Hcode Hok. unfold upload_sensor. rewrite Hcode.
  unfold severity_rules, first_match, suspend_condition, alert_condition,
    pre_alert_condition.
  destruct (alertSuspend (pumpAlert data) || alertSuspendLow (pumpAlert data));
    [|destruct ((sensorBGL data <? bgl_low_val cfg) || (sensorBGL data >? bgl_high_val cfg)
                || alertOnLow (pumpAlert data) || alertOnHigh (pumpAlert data));
      [|destruct ((sensorBGL data <? bgl_pre_low_val cfg)
                  || (sensorBGL data >? bgl_pre_high_val cfg)
                  || alertBeforeLow (pumpAlert data) || alertBeforeHigh (pumpAlert data))]].
  all: run_blynk Hok.
  all: eexists; split; [reflexivity|]; split; [reflexivity|].
  all: rewrite !calls_logged, <- !app_assoc; reflexivity.
Qed.

Lemma displayed_severity_color v rest t :
  displayed_severity (v :: set_property VPIN_SENSOR "color" (severity_color t) :: rest)
  = match v with
    | set_property p prop c =>
        if (p =? VPIN_SENSOR) && String.eqb prop "color" then color_severity c else Some t
    | _ => Some t
    end.
Proof. destruct v; try (destruct t; reflexivity).
       unfold displayed_severity, first_color. simpl.
       destruct ((pin =? VPIN_SENSOR) && String.eqb prop "color"); [reflexivity|].
       destruct t; reflexivity.
Qed.

(** For a reading that has no entry in the exception table, the tier shown
    on the gauge is the first match of the ordered rules. *)
Lemma regular_severity_first_match data s :
  sensor_exception_codes !! sensorBGL data = None ->
  (forall n, blynk_raises w n = false) ->
  exists s' shown tier,
    upload_sensor data s = (Returns tt, s')
    /\ calls s' = calls s ++ shown
    /\ displayed_severity shown = Some tier
    /\ tier = first_match (severity_rules cfg) data
    /\ (suspend_condition data = true -> tier = suspended)
    /\ (suspend_condition data = false -> alert_condition cfg data = true ->
        tier = alert)
    /\ (suspend_condition data = false -> alert_condition cfg data = false ->
        pre_alert_condition cfg data = true -> tier = pre_alert)
    /\ (suspend_condition data = false -> alert_condition cfg data = false ->
        pre_alert_condition cfg data = false -> tier = normal).
Proof.
  intros Hcode Hok.
  destruct (regular_branch data s Hcode Hok) as (s' & Hrun & _ & Hcalls).
  exists s'. eexists. exists (first_match (severity_rules cfg) data).
  split; [exact Hrun|]. split; [exact Hcalls|].
  split; [apply displayed_severity_color|]. split; [reflexivity|].
  unfold severity_rules, first_match.
  repeat split; intros; repeat match goal with H : _ = _ |- _ => rewrite H end;
    reflexivity.
Qed.

(** ** Battery and reservoir bands *)

Lemma battery_bar data s :
  (forall n, blynk_raises w n = false) ->
  exists s' label v b,
    upload_battery data s = (Returns tt, s')
    /\ globals s' = globals s
    /\ calls s' = calls s ++
         [ set_property VPIN_BATTERY "label" label;
           virtual_write VPIN_BATTERY (VInt v);
           set_property VPIN_BATTERY "color" (band_color b) ]
    /\ (g_cycleCount (globals s) mod 2 = 0 ->
        v = batteryLevelPercentage data /\ label = "PUMP BATTERY %"%string)
    /\ (g_cycleCount (globals s) mod 2 <> 0 ->
        v = sensorBatteryLevelPercentage data /\ label = "SENSOR BATTERY %"%string)
    /\ (v <= 25 -> b = critical)
    /\ (25 < v <= 50 -> b = warning)
    /\ (50 < v -> b = fine).
Proof.
  intros Hok. unfold upload_battery.
  erewrite bind_returns by reflexivity.
  destruct (Z.eqb_spec (g_cycleCount (globals s) mod 2) 0) as [He|He];
    match goal with
    | |- context [if ?v <=? 25 then _ else _] =>
        destruct (Z.leb_spec v 25);
        [ eexists; do 2 eexists; exists critical
        | destruct (Z.leb_spec v 50);
          [ eexists; do 2 eexists; exists warning
          | eexists; do 2 eexists; exists fine ] ]
    end.
  all: run_blynk Hok.
  all: split; [reflexivity|].
  all: split; [reflexivity|].
  all: split; [rewrite !calls_logged, <- !app_assoc; reflexivity|].
  all: repeat split; intros; solve [reflexivity | lia | contradiction].
Qed.

Lemma reservoir_bar data s :
  (forall n, blynk_raises w n = false) ->
  exists s' b,
    upload_reservoir data s = (Returns tt, s')
    /\ globals s' = globals s
    /\ calls s' = calls s ++
         [ virtual_write VPIN_UNITS (VInt (py_round (insulinUnitsRemaining data)));
           set_property VPIN_UNITS "color" (band_color b) ]
    /\ ((insulinUnitsRemaining data <= 25)%Q -> b = critical)
    /\ ((25 < insulinUnitsRemaining data <= 75)%Q -> b = warning)
    /\ ((75 < insulinUnitsRemaining data)%Q -> b = fine).
Proof.
  intros Hok. unfold upload_reservoir.
  destruct (Qle_bool (insulinUnitsRemaining data) (inject_Z 25)) eqn:E25;
    [ eexists; exists critical
    | destruct (Qle_bool (insulinUnitsRemaining data) (inject_Z 75)) eqn:E75;
      [ eexists; exists warning | eexists; exists fine ] ].
  all: run_blynk Hok.
  all: split; [reflexivity|].
  all: split; [reflexivity|].
  all: split; [rewrite !calls_logged, <- !app_assoc; reflexivity|].
  all: try apply Qle_bool_iff in E25.
  all: try apply Qle_bool_iff in E75.
  all: try (assert (~ (insulinUnitsRemaining data <= inject_Z 25)%Q) as N25
              by (rewrite <- Qle_bool_iff, E25; discriminate)).
  all: try (assert (~ (insulinUnitsRemaining data <= inject_Z 75)%Q) as N75
              by (rewrite <- Qle_bool_iff, E75; discriminate)).
  all: change (inject_Z 25) with 25%Q in *; change (inject_Z 75) with 75%Q in *.
  all: repeat split; intros; try reflexivity; exfalso.
  - destruct H as [H _]. now apply Qlt_not_le in H.
  - apply Qlt_not_le in H. apply H. eapply Qle_trans; [exact E25|]. discriminate.
  - now apply N25.
  - apply Qlt_not_le in H. now apply H.
  - apply N25. eapply Qle_trans; [exact H|]. discriminate.
  - destruct H as [_ H]. now apply N75.
Qed.

(** C8: the battery bar is red when the reported battery value is at most
    25, yellow when it is above 25 and at most 50, green otherwise; the
    reservoir bar follows the same policy with the bounds 25 and 75; the
    boundary values 25, 50 and 75 belong to the lower band. *)
Theorem battery_and_reservoir_bands data s :
  (forall n, blynk_raises w n = false) ->
  let u := insulinUnitsRemaining data in
  exists s' shown v bb rb,
    (upload_battery data;; upload_reservoir data) s = (Returns tt, s')
    /\ calls s' = calls s ++ shown
    /\ v = (if g_cycleCount (globals s) mod 2 =? 0
            then batteryLevelPercentage data
            else sensorBatteryLevelPercentage data)
    /\ In (virtual_write VPIN_BATTERY (VInt v)) shown
    /\ first_color VPIN_BATTERY shown = Some (band_color bb)
    /\ first_color VPIN_UNITS shown = Some (band_color rb)
    /\ ((v <= 25 -> bb = critical)
        /\ (25 < v <= 50 -> bb = warning)
        /\ (50 < v -> bb = fine))
    /\ (((u <= 25)%Q -> rb = critical)
        /\ ((25 < u <= 75)%Q -> rb = warning)
        /\ ((75 < u)%Q -> rb = fine))
    /\ ((v = 25 -> bb = critical)
        /\ (v = 50 -> bb = warning)
        /\ ((u == 25)%Q -> rb = critical)
        /\ ((u == 75)%Q -> rb = warning)).
Proof.
  intros Hok u.
  destruct (battery_bar data s Hok)
    as (s1 & label & v & bb & Hrun1 & Hg1 & Hcalls1 & Heven & Hodd & Hb1 & Hb2 & Hb3).
  destruct (reservoir_bar data s1 Hok) as (s2 & rb & Hrun2 & Hg2 & Hcalls2 & Hr1 & Hr2 & Hr3).
  exists s2. eexists. exists v, bb, rb.
  split; [erewrite bind_returns by exact Hrun1; exact Hrun2|].
  split; [rewrite Hcalls2, Hcalls1, <- app_assoc; reflexivity|].
  split.
  { destruct (Z.eqb_spec (g_cycleCount (globals s) mod 2) 0) as [He|He].
    - now destruct (Heven He).
    - now destruct (Hodd He). }
  split; [simpl; tauto|].
  split; [reflexivity|]. split; [reflexivity|].
  split; [auto|]. split; [auto|].
  repeat split.
  - intros ->. apply Hb1. lia.
  - intros ->. apply Hb2. lia.
  - intros E. apply Hr1. fold u. rewrite E. apply Qle_refl.
  - intros E. apply Hr2. fold u. rewrite E. split; [reflexivity | apply Qle_refl].
Qed.

(** ** Bolus-change detection *)

(** C6: the bolus time of the snapshot, in integer seconds, is compared
    with the stored one (initially unset).  When they differ the stored
    value is updated, and the last bolus amount is written exactly when
    the bolus is less than two update intervals old; a stale bolus writes
    nothing, not even the active insulin.  When they are equal the active
    insulin is written and no bolus amount. *)
Theorem bolus_change_detection data s :
  (forall n, blynk_raises w n = false) ->
  let t := strftime_s B (lastBolusTime data) in
  exists s' shown,
    upload_bolus data s = (Returns tt, s')
    /\ calls s' = calls s ++ shown
    /\ (g_lastBolusTime (globals s) <> Some t ->
        g_lastBolusTime (globals s') = Some t
        /\ g_active (globals s') = g_active (globals s)
        /\ g_cycleTimer (globals s') = g_cycleTimer (globals s)
        /\ g_cycleCount (globals s') = g_cycleCount (globals s)
        /\ (time_time w - t < 2 * UPDATE_INTERVAL ->
            shown = [virtual_write VPIN_LASTBOLUS (VFloat (lastBolusAmount data))])
        /\ (2 * UPDATE_INTERVAL <= time_time w - t -> shown = []))
    /\ (g_lastBolusTime (globals s) = Some t ->
        globals s' = globals s
        /\ shown = [virtual_write VPIN_ACTINS (VFloat (activeInsulin data))])
    /\ (g_lastBolusTime (globals s) = None -> g_lastBolusTime (globals s') = Some t).
Proof.
  intros Hok t. unfold upload_bolus. fold t.
  erewrite bind_returns by reflexivity.
  destruct (bool_decide_reflect (Some t ≠ g_lastBolusTime (globals s))) as [Hne|Heq].
  - erewrite bind_returns by reflexivity.
    destruct (Z.ltb_spec (time_time w - t) (2 * UPDATE_INTERVAL)) as [Hrecent|Hstale].
    + run_blynk Hok. eexists. eexists. split; [reflexivity|].
      split; [rewrite calls_logged; reflexivity|].
      split; [|split]; intros Hs; simpl; try reflexivity.
      * repeat split; try reflexivity. intros; lia.
      * now rewrite Hs in Hne.
    + eexists. exists []. split; [reflexivity|].
      split; [unfold calls; simpl; now rewrite app_nil_r|].
      split; [|split]; intros Hs; simpl; try reflexivity.
      * repeat split; try reflexivity. intros; lia.
      * now rewrite Hs in Hne.
  - apply dec_stable in Heq.
    run_blynk Hok. eexists. eexists. split; [reflexivity|].
    split; [rewrite calls_logged; reflexivity|].
    split; [|split]; intros Hs; simpl.
    + now rewrite Heq in Hs.
    + split; reflexivity.
    + now rewrite Hs in Heq.
Qed.

(** ** Steps that run under the guard *)

Lemma quiet_weaken {A} (m : M A) (P Q : result A -> Prop) :
  (forall r, P r -> Q r) -> runs_quietly m P -> runs_quietly m Q.
Proof.
  intros HPQ Hm s Hs. destruct (Hm s Hs) as (r & s' & new & E & HP & H).
  exists r, s', new. auto.
Qed.

Lemma quiet_ret {A} (a : A) : runs_quietly (mret a) (returned_value a).
Proof.
  intros s Hs. exists (Returns a), s, []. rewrite app_nil_r.
  repeat split; auto.
Qed.

Lemma quiet_bind {A C} (m : M A) (f : A -> M C) (Q : result C -> Prop) :
  runs_quietly m (fun _ => True) ->
  (forall a, runs_quietly (f a) Q) ->
  Q Raises ->
  runs_quietly (m ≫= f) Q.
Proof.
  intros Hm Hf HQ s Hs.
  destruct (Hm s Hs) as (r & s1 & new1 & E1 & _ & Ha1 & Hc1 & Ht1 & Hq1).
  destruct r as [a|].
  - destruct (Hf a s1 Ha1) as (r2 & s2 & new2 & E2 & HQ2 & Ha2 & Hc2 & Ht2 & Hq2).
    exists r2, s2, (new1 ++ new2). rewrite (bind_returns _ _ _ _ _ E1).
    repeat split; auto; try congruence.
    + rewrite Ht2, Ht1. now rewrite app_assoc.
    + apply Forall_app; auto.
  - exists Raises, s1, new1. rewrite (bind_raises _ _ _ _ E1). repeat split; auto.
Qed.

(** The same for a first step that always returns: the outcome is the
    outcome of the continuation. *)
Lemma quiet_bind_returning {A C} (m : M A) (f : A -> M C) (Q : result C -> Prop) :
  runs_quietly m returned ->
  (forall a, runs_quietly (f a) Q) ->
  runs_quietly (m ≫= f) Q.
Proof.
  intros Hm Hf s Hs.
  destruct (Hm s Hs) as (r & s1 & new1 & E1 & [a ->] & Ha1 & Hc1 & Ht1 & Hq1).
  destruct (Hf a s1 Ha1) as (r2 & s2 & new2 & E2 & HQ2 & Ha2 & Hc2 & Ht2 & Hq2).
  exists r2, s2, (new1 ++ new2). rewrite (bind_returns _ _ _ _ _ E1).
  repeat split; auto; try congruence.
  - rewrite Ht2, Ht1. now rewrite app_assoc.
  - apply Forall_app; auto.
Qed.

Lemma quiet_log c : is_Timer_start c = false -> runs_quietly (log c) returned.
Proof.
  intros Hc s Hs. exists (Returns tt), (log c s).2, [(true, c)].
  unfold log; simpl. rewrite Hs. repeat split; eauto.
  - now exists tt.
  - repeat constructor; auto.
Qed.

Lemma quiet_blynk c : is_Timer_start c = false -> runs_quietly (blynk c) (fun _ => True).
Proof.
  intros Hc s Hs. unfold blynk. destruct (blynk_raises w (blynk_calls s)).
  - exists Raises. eexists. exists []. rewrite app_nil_r. repeat split; auto.
  - exists (Returns tt). eexists. exists [(true, c)].
    unfold log; simpl. rewrite Hs. repeat split; auto.
    repeat constructor; auto.
Qed.

Lemma quiet_try_except {A} (m h : M A) :
  runs_quietly m (fun _ => True) -> runs_quietly h returned ->
  runs_quietly (try_except m h) returned.
Proof.
  intros Hm Hh s Hs.
  destruct (Hm s Hs) as (r & s1 & new1 & E1 & _ & Ha1 & Hc1 & Ht1 & Hq1).
  unfold try_except. rewrite E1. destruct r as [a|].
  - exists (Returns a), s1, new1. repeat split; auto. now exists a.
  - destruct (Hh s1 Ha1) as (r2 & s2 & new2 & E2 & HQ2 & Ha2 & Hc2 & Ht2 & Hq2).
    exists r2, s2, (new1 ++ new2). repeat split; auto; try congruence.
    + rewrite Ht2, Ht1. now rewrite app_assoc.
    + apply Forall_app; auto.
Qed.

Lemma quiet_get_globals : runs_quietly get_globals returned.
Proof.
  intros s Hs. exists (Returns (globals s)), s, []. rewrite app_nil_r.
  repeat split; auto. now eexists.
Qed.

Lemma quiet_set_lastBolusTime t : runs_quietly (set_lastBolusTime t) returned.
Proof.
  intros s Hs. exists (Returns tt). eexists. exists [].
  unfold set_lastBolusTime. erewrite bind_returns by reflexivity.
  unfold put_globals; simpl. rewrite app_nil_r. repeat split; auto. now exists tt.
Qed.

Lemma quiet_any {A} (m : M A) (P : result A -> Prop) :
  runs_quietly m P -> runs_quietly m (fun _ => True).
Proof. apply quiet_weaken; auto. Qed.

(** Discharges [runs_quietly] goals over sequences of Blynk calls. *)
Ltac quiet :=
  repeat first
    [ apply quiet_blynk; reflexivity
    | apply (quiet_any _ _ (quiet_ret _))
    | apply (quiet_any _ _ quiet_get_globals)
    | apply (quiet_any _ _ (quiet_set_lastBolusTime _))
    | eapply quiet_any; apply quiet_log; reflexivity
    | apply quiet_bind; [ | intros | exact I ]
    | match goal with
      | |- runs_quietly (if ?b then _ else _) _ => destruct b
      | |- runs_quietly (let '(_, _) := if ?b then _ else _ in _) _ => destruct b
      end
    | progress cbv zeta ].

Lemma quiet_upload_sensor data : runs_quietly (upload_sensor data) (fun _ => True).
Proof. unfold upload_sensor. destruct (sensor_exception_codes !! sensorBGL data); quiet. Qed.

Lemma quiet_upload_battery data : runs_quietly (upload_battery data) (fun _ => True).
Proof. unfold upload_battery. quiet. Qed.

Lemma quiet_upload_reservoir data : runs_quietly (upload_reservoir data) (fun _ => True).
Proof. unfold upload_reservoir. quiet. Qed.

Lemma quiet_upload_bolus data : runs_quietly (upload_bolus data) (fun _ => True).
Proof. unfold upload_bolus. quiet. Qed.

Lemma quiet_blynk_upload data : runs_quietly (blynk_upload data) (fun _ => True).
Proof.
  destruct data as [data|]; simpl.
  - apply quiet_bind; [apply quiet_upload_sensor | intros | exact I].
    apply quiet_bind; [apply quiet_upload_battery | intros | exact I].
    apply quiet_bind; [apply quiet_upload_reservoir | intros | exact I].
    apply quiet_upload_bolus.
  - quiet.
Qed.

Lemma quiet_nightscout data : runs_quietly (nightscout data) (fun _ => True).
Proof.
  intros s Hs. unfold nightscout. destruct (nightscout_raises w).
  - exists Raises, s, []. rewrite app_nil_r. repeat split; auto.
  - exists (Returns tt). eexists. exists [(true, nightscout_upload data)].
    unfold log; simpl. rewrite Hs. repeat split; auto. repeat constructor; auto.
Qed.

Lemma read_attempt_returns attempt data (h : M (option (option LiveData))) s :
  driver_read w attempt = read_returns data ->
  try_except (liveData ← cnl24_readLiveData attempt; mret (Some liveData)) h s
  = (Returns (Some data), (log readLiveData s).2).
Proof.
  intros E. unfold try_except, mbind, M_bind, cnl24_readLiveData. now rewrite E.
Qed.

Lemma read_attempt_raises attempt s :
  driver_read w attempt = read_raises ->
  try_except (liveData ← cnl24_readLiveData attempt; mret (Some liveData))
             (log (syslog "Unexpected ERROR occured while reading live data");;
              mret None) s
  = (Returns None,
     (log (syslog "Unexpected ERROR occured while reading live data") s).2).
Proof.
  intros E. unfold try_except, mbind, M_bind, cnl24_readLiveData. now rewrite E.
Qed.

(** The read loop always ends, with the value [fetched] computes. *)
Lemma quiet_read_loop numRetries attempt :
  runs_quietly (read_loop numRetries attempt)
               (returned_value (fetched numRetries attempt)).
Proof.
  revert attempt. induction numRetries as [|n IH]; intros attempt.
  - apply quiet_ret.
  - intros s Hs. simpl read_loop. simpl fetched.
    destruct (driver_read w attempt) as [|data] eqn:E.
    + erewrite bind_returns by (now apply read_attempt_raises).
      assert (runs_quietly
                ((if (0 <? n)%nat then log (sleep RETRY_DELAY) else mret tt);;
                 read_loop n (S attempt))
                (returned_value (fetched n (S attempt)))) as Hrest.
      { apply quiet_bind_returning; [|intros; apply IH].
        destruct (0 <? n)%nat; [apply quiet_log; reflexivity|].
        eapply quiet_weaken; [|apply quiet_ret]. intros r ->. now exists tt. }
      match goal with
      | |- exists r s' new, _ ?s1 = _ /\ _ =>
          destruct (Hrest s1 Hs) as (r & s2 & new & E2 & Hr & Ha & Hc & Ht & Hq)
      end.
      exists r, s2,
        ((true, syslog "Unexpected ERROR occured while reading live data") :: new).
      split; [exact E2|]. split; [exact Hr|]. split; [exact Ha|].
      split; [exact Hc|]. split.
      * rewrite Ht. simpl. rewrite Hs. now rewrite <- app_assoc.
      * constructor; [split; reflexivity | exact Hq].
    + erewrite bind_returns by (apply read_attempt_returns, E).
      eexists. eexists. exists [(true, readLiveData)].
      split; [reflexivity|]. simpl. rewrite Hs.
      repeat split; auto. repeat constructor; auto.
Qed.

(** ** One cycle *)

Lemma blynk_step liveData :
  runs_quietly
    (if blynk_enabled cfg
     then try_except (blynk_upload liveData) (log (syslog "Blynk upload ERROR"))
     else mret tt)
    returned.
Proof.
  destruct (blynk_enabled cfg).
  - apply quiet_try_except; [apply quiet_blynk_upload | now apply quiet_log].
  - eapply quiet_weaken; [|apply quiet_ret]. intros r ->. now exists tt.
Qed.

Lemma nightscout_step liveData s :
  g_active (globals s) = true ->
  exists s',
    (if nightscout_enabled cfg
     then try_except (nightscout liveData) (log (syslog "Nightscout upload ERROR"))
     else mret tt) s = (Returns tt, s')
    /\ globals s' = globals s
    /\ trace s' = trace s ++ nightscout_step_log liveData.
Proof.
  intros Hs. unfold nightscout_step_log, try_except, nightscout, log.
  destruct (nightscout_enabled cfg); [destruct (nightscout_raises w)|];
    eexists; (split; [reflexivity|]); simpl; rewrite ?Hs, ?app_nil_r; auto.
Qed.

(** What a cycle that passes the guard does, up to the outcome of the timer
    start. *)
Lemma cycle_runs s :
  g_active (globals s) = false ->
  let liveData := account_for_drift <$> fetched MAX_RETRIES_AT_FAILURE 0 in
  let delay := tmoSeconds liveData + 10 in
  exists r s' new,
    upload_live_data s = (r, s')
    /\ Forall guarded_no_timer new
    /\ g_cycleTimer (globals s') = Some delay
    /\ (timer_raises w = false ->
        r = Returns tt
        /\ g_active (globals s') = false
        /\ g_cycleCount (globals s') = g_cycleCount (globals s) + 1
        /\ trace s' = trace s ++ new ++ nightscout_step_log liveData
                      ++ [(true, Timer_start delay)])
    /\ (timer_raises w = true ->
        r = Raises
        /\ g_active (globals s') = true
        /\ g_cycleCount (globals s') = g_cycleCount (globals s)
        /\ trace s' = trace s ++ new ++ nightscout_step_log liveData).
Proof.
  intros Hs liveData delay. unfold upload_live_data.
  erewrite bind_returns by reflexivity. rewrite Hs.
  erewrite bind_returns by reflexivity.
  match goal with
  | |- exists r s' new, _ ?s1 = _ /\ _ =>
      destruct (quiet_read_loop MAX_RETRIES_AT_FAILURE 0 s1 eq_refl)
        as (r1 & s2 & new1 & E1 & -> & Ha1 & Hc1 & Ht1 & Hq1)
  end.
  erewrite bind_returns by exact E1. fold liveData.
  destruct (blynk_step liveData s2 Ha1)
    as (r2 & s3 & new2 & E2 & [[] ->] & Ha2 & Hc2 & Ht2 & Hq2).
  erewrite bind_returns by exact E2.
  destruct (nightscout_step liveData s3 Ha2) as (s4 & E3 & Hg3 & Ht3).
  erewrite bind_returns by exact E3. fold delay.
  unfold start_timer.
  assert (trace s4 = trace s ++ (new1 ++ new2) ++ nightscout_step_log liveData) as Ht4.
  { rewrite Ht3, Ht2, Ht1. simpl. now rewrite !app_assoc. }
  assert (g_cycleCount (globals s4) = g_cycleCount (globals s)) as Hc4.
  { rewrite Hg3, Hc2, Hc1. reflexivity. }
  destruct (timer_raises w) eqn:Htimer.
  - erewrite bind_raises by (erewrite bind_returns by reflexivity;
                             unfold Timer_start_call; rewrite Htimer; reflexivity).
    exists Raises. eexists. exists (new1 ++ new2).
    split; [reflexivity|]. split; [now apply Forall_app|]. split; [reflexivity|].
    split; [discriminate|]. intros _. simpl. rewrite Hg3.
    repeat split; auto; congruence.
  - erewrite bind_returns by (erewrite bind_returns by reflexivity;
                              unfold Timer_start_call; rewrite Htimer; reflexivity).
    exists (Returns tt). eexists. exists (new1 ++ new2).
    split; [reflexivity|]. split; [now apply Forall_app|]. split; [reflexivity|].
    split; [|discriminate]. intros _. simpl. rewrite Hg3, Ha2.
    repeat split; auto.
    + congruence.
    + rewrite Ht4. now rewrite <- !app_assoc.
Qed.

Lemma timers_started_trace s : timers_started s = timers_in (trace s).
Proof. reflexivity. Qed.

Lemma timers_in_app l1 l2 : timers_in (l1 ++ l2) = (timers_in l1 + timers_in l2)%nat.
Proof. unfold timers_in. now rewrite map_app, filter_app, length_app. Qed.

Lemma timers_in_quiet l : Forall guarded_no_timer l -> timers_in l = 0%nat.
Proof.
  induction 1 as [|e l [_ He] _ IH]; [reflexivity|].
  unfold timers_in in *. simpl. rewrite filter_cons_False; [exact IH|].
  rewrite He. discriminate.
Qed.

Lemma nightscout_step_log_quiet liveData :
  Forall guarded_no_timer (nightscout_step_log liveData).
Proof.
  unfold nightscout_step_log.
  destruct (nightscout_enabled cfg); [destruct (nightscout_raises w)|];
    repeat constructor.
Qed.

Lemma guarded_no_timer_guarded l :
  Forall guarded_no_timer l -> Forall (fun e : bool * call => e.1 = true) l.
Proof. intros H. eapply Forall_impl; [exact H|]. now intros e [He _]. Qed.

(** C4, amended: a call made while a cycle is in progress returns at once
    and changes nothing.  Otherwise every call on a collaborator is made
    with the guard set, and, whenever no exception escapes the cycle (a
    failed fetch or upload never escapes; a failing timer start does), the
    cycle returns with the guard cleared and exactly one timer started,
    whatever the driver, Blynk and Nightscout did. *)
Theorem cycle_guard_and_rearm s :
  (g_active (globals s) = true -> upload_live_data s = (Returns tt, s))
  /\ (g_active (globals s) = false ->
      exists r s' new,
        upload_live_data s = (r, s')
        /\ trace s' = trace s ++ new
        /\ Forall (fun e : bool * call => e.1 = true) new
        /\ (timer_raises w = false ->
            r = Returns tt
            /\ g_active (globals s') = false
            /\ timers_started s' = S (timers_started s))).
Proof.
  split; intros Hs.
  - unfold upload_live_data. erewrite bind_returns by reflexivity.
    now rewrite Hs.
  - destruct (cycle_runs s Hs) as (r & s' & new & E & Hq & _ & Hok & Hfail).
    pose proof (nightscout_step_log_quiet
                  (account_for_drift <$> fetched MAX_RETRIES_AT_FAILURE 0)) as Hns.
    destruct (timer_raises w) eqn:Htimer.
    + destruct (Hfail eq_refl) as (_ & _ & _ & Ht).
      exists r, s'. eexists. split; [exact E|]. split; [exact Ht|].
      split; [|discriminate].
      apply guarded_no_timer_guarded, Forall_app; auto.
    + destruct (Hok eq_refl) as (-> & Ha & _ & Ht).
      exists (Returns tt), s'. eexists. split; [exact E|]. split; [exact Ht|].
      split.
      * apply Forall_app; split; [now apply guarded_no_timer_guarded|].
        apply Forall_app; split; [now apply guarded_no_timer_guarded|].
        repeat constructor.
      * intros _. repeat split; auto.
        rewrite !timers_started_trace, Ht, !timers_in_app.
        rewrite (timers_in_quiet _ Hq), (timers_in_quiet _ Hns).
        unfold timers_in; simpl. lia.
Qed.

(** The stages of a cycle that passes the guard: the state the read loop
    leaves, the state the Blynk step reaches from it on the corrected
    snapshot, and what follows. *)
Lemma cycle_stages s :
  g_active (globals s) = false ->
  let liveData := account_for_drift <$> fetched MAX_RETRIES_AT_FAILURE 0 in
  exists r s' s1 s2,
    upload_live_data s = (r, s')
    /\ read_loop MAX_RETRIES_AT_FAILURE 0 (set_active true s).2
       = (Returns (fetched MAX_RETRIES_AT_FAILURE 0), s1)
    /\ (if blynk_enabled cfg
        then try_except (blynk_upload liveData) (log (syslog "Blynk upload ERROR"))
        else mret tt) s1 = (Returns tt, s2)
    /\ g_lastBolusTime (globals s') = g_lastBolusTime (globals s2)
    /\ trace s' = trace s2 ++ nightscout_step_log liveData
                  ++ (if timer_raises w then []
                      else [(true, Timer_start (tmoSeconds liveData + 10))]).
Proof.
  intros Hs liveData. unfold upload_live_data.
  erewrite bind_returns by reflexivity. rewrite Hs.
  erewrite bind_returns by reflexivity.
  change ((set_active true s).2) with
    {| globals := {| g_active := true;
                     g_lastBolusTime := g_lastBolusTime (globals s);
                     g_cycleTimer := g_cycleTimer (globals s);
                     g_cycleCount := g_cycleCount (globals s) |};
       trace := trace s; blynk_calls := blynk_calls s |}.
  match goal with
  | |- exists r s' s1 s2, _ ?s0 = _ /\ _ =>
      destruct (quiet_read_loop MAX_RETRIES_AT_FAILURE 0 s0 eq_refl)
        as (r1 & s1 & new1 & E1 & -> & Ha1 & _ & _ & _)
  end.
  erewrite bind_returns by exact E1. fold liveData.
  destruct (blynk_step liveData s1 Ha1)
    as (r2 & s2 & new2 & E2 & [[] ->] & Ha2 & _ & _ & _).
  erewrite bind_returns by exact E2.
  destruct (nightscout_step liveData s2 Ha2) as (s3 & E3 & Hg3 & Ht3).
  erewrite bind_returns by exact E3.
  unfold start_timer.
  destruct (timer_raises w) eqn:Htimer.
  - erewrite bind_raises by (erewrite bind_returns by reflexivity;
                             unfold Timer_start_call; rewrite Htimer; reflexivity).
    exists Raises. eexists. exists s1, s2.
    split; [reflexivity|]. split; [exact E1|]. split; [exact E2|].
    simpl. rewrite Hg3, Ht3, app_nil_r. split; reflexivity.
  - erewrite bind_returns by (erewrite bind_returns by reflexivity;
                              unfold Timer_start_call; rewrite Htimer; reflexivity).
    exists (Returns tt). eexists. exists s1, s2.
    split; [reflexivity|]. split; [exact E1|]. split; [exact E2|].
    simpl. rewrite Hg3, Ht3, Ha2, <- app_assoc. split; reflexivity.
Qed.

(** ** Rescheduling *)

(** C2, amended: in a cycle that passes the guard the timer is built with
    the delay [tmo + 10], where, after a successful fetch, [tmo] is the
    whole number of seconds from now to the next reading (the corrected
    reading time plus [UPDATE_INTERVAL] = 300 s), replaced by
    [RETRY_INTERVAL] = 180 when negative, the sign being tested before the
    10 s margin is added; after a failed fetch [tmo] is [RETRY_INTERVAL].
    The delay is therefore 190 s in both fallback cases, and the timer is
    started with it unless the start raises. *)
Theorem timer_delay s :
  g_active (globals s) = false ->
  let liveData := account_for_drift <$> fetched MAX_RETRIES_AT_FAILURE 0 in
  exists r s' delay,
    upload_live_data s = (r, s')
    /\ g_cycleTimer (globals s') = Some delay
    /\ (timer_raises w = false -> In (Timer_start delay) (calls s'))
    /\ (forall d, liveData = Some d ->
        nextReading d = sensorBGLTimestamp d + UPDATE_INTERVAL * 1000000
        /\ UPDATE_INTERVAL = 300
        /\ let tmo := int_total_seconds (nextReading d - now_pump_tz w) in
           (0 <= tmo -> delay = tmo + 10)
           /\ (tmo < 0 -> delay = RETRY_INTERVAL + 10 /\ delay = 190))
    /\ (liveData = None -> delay = RETRY_INTERVAL + 10 /\ delay = 190).
Proof.
  intros Hs liveData.
  destruct (cycle_runs s Hs) as (r & s' & new & E & _ & Hdelay & Hok & _).
  fold liveData in Hdelay, Hok.
  exists r, s', (tmoSeconds liveData + 10).
  split; [exact E|]. split; [exact Hdelay|]. split; [|split].
  - intros Htimer. destruct (Hok Htimer) as (_ & _ & _ & Ht).
    unfold calls. rewrite Ht, !map_app. apply in_or_app. right.
    apply in_or_app. right. apply in_or_app. right. simpl. tauto.
  - intros d ->. split; [reflexivity|]. split; [reflexivity|].
    simpl. destruct (Z.ltb_spec (int_total_seconds (nextReading d - now_pump_tz w)) 0);
      split; intros; try lia. split; reflexivity.
  - intros ->. split; reflexivity.
Qed.

(** ** Drift correction *)

(** C7: the correction adds the drift to [pumpTime]; it adds the drift to
    [sensorBGLTimestamp] unless the reading is the sensor-lost code, in
    which case the timestamp is left as it is, also for a drift that is not
    zero; nothing else changes.  It is a total function, and a cycle applies
    it exactly once to the snapshot it fetched: the Blynk upload runs on the
    fetched snapshot corrected once, the same snapshot is handed to
    Nightscout and used for rescheduling, and for a drift that is not zero
    that snapshot differs both from the fetched one and from one corrected
    twice. *)
Theorem drift_correction d s :
  pumpTime (account_for_drift d) = pumpTime d + pumpTimeDrift d
  /\ (sensorBGL d <> SENSOR_LOST ->
      sensorBGLTimestamp (account_for_drift d) = sensorBGLTimestamp d + pumpTimeDrift d)
  /\ (sensorBGL d = SENSOR_LOST ->
      sensorBGLTimestamp (account_for_drift d) = sensorBGLTimestamp d)
  /\ account_for_drift d
     = {| sensorBGL := sensorBGL d;
          sensorBGLTimestamp := sensorBGLTimestamp (account_for_drift d);
          sensorCalMinutesRemaining := sensorCalMinutesRemaining d;
          trendArrow := trendArrow d;
          pumpTime := pumpTime (account_for_drift d);
          pumpTimeDrift := pumpTimeDrift d;
          activeInsulin := activeInsulin d;
          lastBolusAmount := lastBolusAmount d;
          lastBolusTime := lastBolusTime d;
          insulinUnitsRemaining := insulinUnitsRemaining d;
          batteryLevelPercentage := batteryLevelPercentage d;
          sensorBatteryLevelPercentage := sensorBatteryLevelPercentage d;
          pumpAlert := pumpAlert d |}
  /\ (pumpTimeDrift d <> 0 ->
      account_for_drift d <> d
      /\ account_for_drift (account_for_drift d) <> account_for_drift d)
  /\ (g_active (globals s) = false ->
      fetched MAX_RETRIES_AT_FAILURE 0 = Some d ->
      exists r s' s1 s2,
        upload_live_data s = (r, s')
        /\ read_loop MAX_RETRIES_AT_FAILURE 0 (set_active true s).2
           = (Returns (Some d), s1)
        /\ (if blynk_enabled cfg
            then try_except (blynk_upload (Some (account_for_drift d)))
                            (log (syslog "Blynk upload ERROR"))
            else mret tt) s1 = (Returns tt, s2)
        /\ g_lastBolusTime (globals s') = g_lastBolusTime (globals s2)
        /\ trace s' = trace s2
                      ++ nightscout_step_log (Some (account_for_drift d))
                      ++ (if timer_raises w then []
                          else [(true,
                                 Timer_start
                                   (tmoSeconds (Some (account_for_drift d)) + 10))])
        /\ g_cycleTimer (globals s') = Some (tmoSeconds (Some (account_for_drift d)) + 10)
        /\ (nightscout_enabled cfg = true -> nightscout_raises w = false ->
            In (nightscout_upload (Some (account_for_drift d))) (calls s'))).
Proof.
  split; [reflexivity|]. split; [|split; [|split; [|split]]].
  - intros Hne. simpl. now rewrite bool_decide_eq_true_2.
  - intros He. simpl. rewrite bool_decide_eq_false_2; [reflexivity|]. tauto.
  - reflexivity.
  - intros Hdrift. split; intros H; apply (f_equal pumpTime) in H; simpl in H; lia.
  - intros Hs Hfetch.
    destruct (cycle_stages s Hs) as (r & s' & s1 & s2 & E & Hread & Hblynk & Hlast & Ht).
    destruct (cycle_runs s Hs) as (r0 & s0 & new & E0 & _ & Hdelay & _).
    rewrite E in E0. injection E0 as <- <-.
    rewrite Hfetch in Hread, Hblynk, Ht, Hdelay. simpl in Hblynk, Ht, Hdelay.
    exists r, s', s1, s2.
    split; [exact E|]. split; [exact Hread|]. split; [exact Hblynk|].
    split; [exact Hlast|]. split; [exact Ht|]. split; [exact Hdelay|].
    intros Hen Hns.
    unfold calls. rewrite Ht, !map_app. apply in_or_app. right.
    apply in_or_app. left.
    unfold nightscout_step_log. rewrite Hen, Hns. simpl. tauto.
Qed.

(** ** Thresholds *)

Lemma read_config_bgl raw c :
  read_config B raw = Some c ->
  exists pre_high high,
    raw_bgl_pre_high raw = Some pre_high
    /\ raw_bgl_high raw = Some high
    /\ bgl_pre_high_val c = disable_if_zero (to_int B (unquote pre_high))
    /\ bgl_high_val c = disable_if_zero (to_int B (unquote high)).
Proof.
  unfold read_config. intros H.
  destruct (raw_blynk_server raw), (raw_blynk_token raw), (raw_blynk_heartbeat raw),
    (raw_nightscout_server raw), (raw_nightscout_api_secret raw), (raw_bgl_low raw),
    (raw_bgl_pre_low raw), (raw_bgl_pre_high raw) as [pre_high|],
    (raw_bgl_high raw) as [high|]; simpl in H; try discriminate.
  injection H as <-. exists pre_high, high. repeat split.
Qed.

(** C5, amended: an upper threshold configured as zero is replaced by
    1000.  The comparison [reading > bound] then never fires for a reading
    of at most 1000, so for such a reading the alert (for the high bound)
    or pre-alert (for the pre-high bound) tier is decided by the lower
    bound and the flags alone. *)
Theorem zero_threshold_disabled raw c :
  read_config B raw = Some c ->
  (forall v, raw_bgl_high raw = Some v -> to_int B (unquote v) = 0 ->
     bgl_high_val c = 1000
     /\ (forall reading, reading <= 1000 -> (reading >? bgl_high_val c) = false)
     /\ (forall d, sensorBGL d <= 1000 ->
           alert_condition c d
           = (sensorBGL d <? bgl_low_val c)
             || alertOnLow (pumpAlert d) || alertOnHigh (pumpAlert d)))
  /\ (forall v, raw_bgl_pre_high raw = Some v -> to_int B (unquote v) = 0 ->
     bgl_pre_high_val c = 1000
     /\ (forall reading, reading <= 1000 -> (reading >? bgl_pre_high_val c) = false)
     /\ (forall d, sensorBGL d <= 1000 ->
           pre_alert_condition c d
           = (sensorBGL d <? bgl_pre_low_val c)
             || alertBeforeLow (pumpAlert d) || alertBeforeHigh (pumpAlert d))).
Proof.
  intros Hc.
  destruct (read_config_bgl raw c Hc) as (pre_high & high & Hph & Hh & Ephv & Ehv).
  split; intros v Hv Hzero.
  - assert (bgl_high_val c = 1000) as E.
    { rewrite Hh in Hv. injection Hv as ->. now rewrite Ehv, Hzero. }
    split; [exact E|]. split.
    + intros reading Hr. rewrite E, Z.gtb_ltb. apply Z.ltb_ge. exact Hr.
    + intros d Hd. unfold alert_condition. rewrite E.
      replace (sensorBGL d >? 1000) with false
        by (symmetry; rewrite Z.gtb_ltb; apply Z.ltb_ge; exact Hd).
      now rewrite orb_false_r.
  - assert (bgl_pre_high_val c = 1000) as E.
    { rewrite Hph in Hv. injection Hv as ->. now rewrite Ephv, Hzero. }
    split; [exact E|]. split.
    + intros reading Hr. rewrite E, Z.gtb_ltb. apply Z.ltb_ge. exact Hr.
    + intros d Hd. unfold pre_alert_condition. rewrite E.
      replace (sensorBGL d >? 1000) with false
        by (symmetry; rewrite Z.gtb_ltb; apply Z.ltb_ge; exact Hd).
      now rewrite orb_false_r.
Qed.

(** C10: [to_int] returns 0 for every string [int] rejects.  A file with
    all options present is accepted whatever its numbers look like, and an
    upper threshold whose text is no integer ends up as 1000, the value of
    a disabled threshold. *)
Theorem malformed_threshold_disabled raw :
  (forall s, py_int B s = None -> to_int B s = 0)
  /\ (all_options_present raw ->
      exists c,
        read_config B raw = Some c
        /\ (forall v, raw_bgl_pre_high raw = Some v -> py_int B (unquote v) = None ->
              bgl_pre_high_val c = 1000
              /\ bgl_pre_high_val c = disable_if_zero 0)
        /\ (forall v, raw_bgl_high raw = Some v -> py_int B (unquote v) = None ->
              bgl_high_val c = 1000
              /\ bgl_high_val c = disable_if_zero 0)).
Proof.
  assert (forall s, py_int B s = None -> to_int B s = 0) as Hto
    by (intros s0 E; unfold to_int; now rewrite E).
  split; [exact Hto|].
  destruct raw as [o1 o2 o3 o4 o5 o6 o7 o8 o9]. unfold all_options_present. simpl.
  intros ([a ->] & [b ->] & [c ->] & [d ->] & [e ->] & [f ->] & [g ->] & [h ->] & [i ->]).
  eexists. split; [reflexivity|].
  simpl. split; intros v [= ->] Hv; rewrite (Hto _ Hv); split; reflexivity.
Qed.

(** ** SENSOR_OK *)

(** C9: the table of the uploader has an entry for [SENSOR_OK] = 0x0300
    with the string "Sensor OK", a code that is not among the thirteen
    enumerated exceptions, so a reading equal to [SENSOR_OK] takes the
    sensor-fault branch: the gauge is blanked and coloured white and the
    status line is coloured red. *)
Theorem SENSOR_OK_is_sensor_fault data s :
  sensorBGL data = SENSOR_OK ->
  (forall n, blynk_raises w n = false) ->
  SENSOR_OK = 768
  /\ SENSOR_OK_STR = "Sensor OK"%string
  /\ is_Some (sensor_exception_codes !! SENSOR_OK)
  /\ (SENSOR_LOST <> SENSOR_OK ->
      sensor_exception_codes !! SENSOR_OK = Some SENSOR_OK_STR
      /\ ~ In SENSOR_OK (enumerated_exceptions.*1))
  /\ exists s' shown,
       upload_sensor data s = (Returns tt, s')
       /\ calls s' = calls s ++ shown
       /\ head shown = Some (virtual_write VPIN_SENSOR VNone)
       /\ first_color VPIN_SENSOR shown = Some BLYNK_WHITE
       /\ first_color VPIN_STATUS shown = Some BLYNK_RED
       /\ displayed_severity shown = Some sensor_fault.
Proof.
  intros Hbgl Hok.
  assert (is_Some (sensor_exception_codes !! SENSOR_OK)) as Hsome.
  { destruct (decide (SENSOR_OK = SENSOR_LOST)) as [E|N].
    - rewrite E, lookup_SENSOR_LOST. eauto.
    - rewrite (lookup_other_code _ N). eexists. reflexivity. }
  split; [reflexivity|]. split; [reflexivity|]. split; [exact Hsome|]. split.
  - intros N. split.
    + rewrite lookup_other_code by congruence. reflexivity.
    + simpl. intros H.
      repeat (destruct H as [H|H]; [try discriminate H; congruence|]). exact H.
  - destruct Hsome as [code_str Hcode]. rewrite <- Hbgl in Hcode.
    destruct (exception_branch data s code_str Hcode Hok) as (s' & Hrun & _ & Hcalls).
    exists s'. eexists. split; [exact Hrun|]. split; [exact Hcalls|].
    repeat split.
Qed.

(** ** The read loop in detail *)

Lemma read_loop_raise_step n attempt s :
  driver_read w attempt = read_raises ->
  read_loop (S n) attempt s
  = ((if (0 <? n)%nat then log (sleep RETRY_DELAY) else mret tt);;
     read_loop n (S attempt)) (log (syslog read_error_msg) s).2.
Proof.
  intros E. simpl read_loop.
  erewrite bind_returns by (now apply read_attempt_raises). reflexivity.
Qed.

Lemma read_loop_return_step n attempt data s :
  driver_read w attempt = read_returns data ->
  read_loop (S n) attempt s = (Returns data, (log readLiveData s).2).
Proof.
  intros E. simpl read_loop.
  erewrite bind_returns by (apply read_attempt_returns, E). reflexivity.
Qed.

Lemma calls_log c s : calls (log c s).2 = calls s ++ [c].
Proof. unfold calls, log; simpl. now rewrite map_app. Qed.

Lemma globals_log c s : globals (log c s).2 = globals s.
Proof. reflexivity. Qed.

(** X1: the read loop stops at the first driver read that returns, whatever
    it returns (a snapshot or None): if the reads before attempt [k] raise
    and read [k] returns within the retry budget, the result is that value,
    each failed read has logged the error and slept [RETRY_DELAY], and no
    later read is made. *)
Theorem read_loop_first_return numRetries attempt k data s :
  (k < numRetries)%nat ->
  (forall i, (i < k)%nat -> driver_read w (attempt + i) = read_raises) ->
  driver_read w (attempt + k) = read_returns data ->
  exists s',
    read_loop numRetries attempt s = (Returns data, s')
    /\ globals s' = globals s
    /\ calls s' = calls s ++ retry_log k ++ [readLiveData].
Proof.
  revert numRetries attempt s.
  induction k as [|k IH]; intros n a s Hk Hfail Hret.
  - destruct n as [|n]; [lia|].
    rewrite Nat.add_0_r in Hret.
    rewrite (read_loop_return_step _ _ _ _ Hret).
    eexists. split; [reflexivity|]. split; [reflexivity|]. apply calls_log.
  - destruct n as [|n]; [lia|].
    assert (driver_read w a = read_raises) as Ha
      by (rewrite <- (Nat.add_0_r a); apply Hfail; lia).
    rewrite (read_loop_raise_step _ _ _ Ha).
    destruct n as [|n]; [lia|]. change (0 <? S n)%nat with true.
    erewrite bind_returns by reflexivity.
    destruct (IH (S n) (S a) (log (sleep RETRY_DELAY) (log (syslog read_error_msg) s).2).2)
      as (s' & Hrun & Hg & Hc).
    + lia.
    + intros i Hi. replace (S a + i)%nat with (a + S i)%nat by lia. apply Hfail. lia.
    + replace (S a + k)%nat with (a + S k)%nat by lia. exact Hret.
    + exists s'. split; [exact Hrun|]. split; [exact Hg|].
      rewrite Hc, !calls_log. simpl. now rewrite <- !app_assoc.
Qed.

Lemma sleeps_in_retry_log k :
  length (filter (fun c => is_sleep c = true) (retry_log k)) = k.
Proof.
  induction k as [|k IH]; [reflexivity|]. simpl retry_log.
  rewrite filter_cons_False by discriminate.
  rewrite filter_cons_True by reflexivity. simpl. now rewrite IH.
Qed.

Lemma sleeps_in_exhausted_log n :
  length (filter (fun c => is_sleep c = true) (exhausted_log n)) = (n - 1)%nat.
Proof.
  destruct n as [|n]; [reflexivity|]. unfold exhausted_log.
  rewrite filter_app, length_app, sleeps_in_retry_log.
  rewrite filter_cons_False by discriminate. simpl. lia.
Qed.

Lemma errors_in_retry_log k :
  length (filter (fun c => is_sleep c = false) (retry_log k)) = k.
Proof.
  induction k as [|k IH]; [reflexivity|]. simpl retry_log.
  rewrite filter_cons_True by reflexivity.
  rewrite filter_cons_False by discriminate. simpl. now rewrite IH.
Qed.

Lemma errors_in_exhausted_log n :
  length (filter (fun c => is_sleep c = false) (exhausted_log n)) = n.
Proof.
  destruct n as [|n]; [reflexivity|]. unfold exhausted_log.
  rewrite filter_app, length_app, errors_in_retry_log.
  rewrite filter_cons_True by reflexivity. simpl. lia.
Qed.

Lemma read_loop_all_raise numRetries attempt s :
  (forall i, (i < numRetries)%nat -> driver_read w (attempt + i) = read_raises) ->
  exists s',
    read_loop numRetries attempt s = (Returns None, s')
    /\ globals s' = globals s
    /\ calls s' = calls s ++ exhausted_log numRetries.
Proof.
  revert attempt s. induction numRetries as [|n IH]; intros a s Hfail.
  - exists s. split; [reflexivity|]. split; [reflexivity|].
    simpl. now rewrite app_nil_r.
  - assert (driver_read w a = read_raises) as Ha
      by (rewrite <- (Nat.add_0_r a); apply Hfail; lia).
    rewrite (read_loop_raise_step _ _ _ Ha).
    destruct n as [|n].
    + simpl. eexists. split; [reflexivity|]. split; [reflexivity|]. apply calls_log.
    + change (0 <? S n)%nat with true.
      erewrite bind_returns by reflexivity.
      destruct (IH (S a) (log (sleep RETRY_DELAY) (log (syslog read_error_msg) s).2).2)
        as (s' & Hrun & Hg & Hc).
      { intros i Hi. replace (S a + i)%nat with (a + S i)%nat by lia. apply Hfail. lia. }
      exists s'. split; [exact Hrun|]. split; [exact Hg|].
      rewrite Hc, !calls_log. simpl. now rewrite <- !app_assoc.
Qed.

(** X2: when every read of the budget raises, the loop ends with no data
    after [numRetries] logged errors and [numRetries - 1] sleeps: it does
    not sleep after the last failure and calls the driver no further. *)
Theorem read_loop_exhausted numRetries attempt s :
  (forall i, (i < numRetries)%nat -> driver_read w (attempt + i) = read_raises) ->
  exists s',
    read_loop numRetries attempt s = (Returns None, s')
    /\ globals s' = globals s
    /\ calls s' = calls s ++ exhausted_log numRetries
    /\ length (filter (fun c => is_sleep c = true) (exhausted_log numRetries))
       = (numRetries - 1)%nat
    /\ length (filter (fun c => is_sleep c = false) (exhausted_log numRetries))
       = numRetries.
Proof.
  intros Hfail.
  destruct (read_loop_all_raise numRetries attempt s Hfail) as (s' & Hrun & Hg & Hc).
  exists s'. split; [exact Hrun|]. split; [exact Hg|]. split; [exact Hc|].
  split; [apply sleeps_in_exhausted_log | apply errors_in_exhausted_log].
Qed.

(** ** A cycle without data *)

Lemma try_except_returns {A} (m h : M A) s a s' :
  m s = (Returns a, s') -> try_except m h s = (Returns a, s').
Proof. intros E. unfold try_except. now rewrite E. Qed.

Lemma try_except_raises {A} (m h : M A) s s' :
  m s = (Raises, s') -> try_except m h s = h s'.
Proof. intros E. unfold try_except. now rewrite E. Qed.

Lemma nightscout_completes liveData s :
  nightscout_raises w = false ->
  nightscout liveData s = (Returns tt, (log (nightscout_upload liveData) s).2).
Proof. intros E. unfold nightscout. now rewrite E. Qed.

Lemma start_timer_completes delay s :
  timer_raises w = false ->
  start_timer delay s
  = (Returns tt, (log (Timer_start delay) (set_cycleTimer delay s).2).2).
Proof.
  intros E. unfold start_timer. erewrite bind_returns by reflexivity.
  unfold Timer_start_call. now rewrite E.
Qed.

(** X3: a cycle whose three reads all raise still runs to its end.  Blynk
    only has its status line coloured red, Nightscout is called with no
    data, the timer is started with 190 s, the stored bolus time is kept,
    the cycle counter moves on and the guard is cleared. *)
Theorem no_data_cycle s :
  g_active (globals s) = false ->
  (forall i, (i < MAX_RETRIES_AT_FAILURE)%nat -> driver_read w i = read_raises) ->
  blynk_enabled cfg = true ->
  nightscout_enabled cfg = true ->
  (forall n, blynk_raises w n = false) ->
  nightscout_raises w = false ->
  timer_raises w = false ->
  exists s',
    upload_live_data s = (Returns tt, s')
    /\ calls s' = calls s ++ exhausted_log MAX_RETRIES_AT_FAILURE
                  ++ [ syslog "Unable to get data from pump";
                       set_property VPIN_STATUS "color" BLYNK_RED;
                       nightscout_upload None;
                       Timer_start 190 ]
    /\ globals s' = {| g_active := false;
                       g_lastBolusTime := g_lastBolusTime (globals s);
                       g_cycleTimer := Some 190;
                       g_cycleCount := g_cycleCount (globals s) + 1 |}.
Proof.
  intros Hs Hfail Hblynk Hns Hok Hnsok Htimer. unfold upload_live_data.
  erewrite bind_returns by reflexivity. rewrite Hs.
  erewrite bind_returns by reflexivity.
  match goal with
  | |- exists s', _ ?s1 = _ /\ _ =>
      destruct (read_loop_all_raise MAX_RETRIES_AT_FAILURE 0 s1 Hfail)
        as (s2 & E1 & Hg1 & Hc1)
  end.
  erewrite bind_returns by exact E1.
  rewrite Hblynk, Hns. cbn [fmap option_fmap option_map].
  erewrite bind_returns.
  2:{ apply try_except_returns. unfold blynk_upload.
      erewrite bind_returns by reflexivity. apply blynk_completes, Hok. }
  erewrite bind_returns by (apply try_except_returns, nightscout_completes, Hnsok).
  erewrite bind_returns by (apply start_timer_completes, Htimer).
  erewrite bind_returns by reflexivity.
  eexists. split; [reflexivity|]. split.
  - unfold calls in *. simpl in Hc1. simpl. rewrite !map_app, Hc1. simpl.
    now rewrite <- !app_assoc.
  - simpl. rewrite Hg1. reflexivity.
Qed.

(** ** Bounds on the rescheduling delay *)

Lemma tmoSeconds_nonneg liveData : 0 <= tmoSeconds liveData.
Proof.
  destruct liveData as [d|]; simpl; [|unfold RETRY_INTERVAL; lia].
  destruct (Z.ltb_spec (int_total_seconds (nextReading d - now_pump_tz w)) 0);
    [unfold RETRY_INTERVAL|]; lia.
Qed.

(** X4: every cycle that passes the guard builds its timer with a delay of
    at least 10 s, whatever was fetched and whatever the clocks say: the
    timer never gets a zero or negative delay. *)
Theorem timer_delay_at_least_10 s :
  g_active (globals s) = false ->
  exists r s' delay,
    upload_live_data s = (r, s')
    /\ g_cycleTimer (globals s') = Some delay
    /\ 10 <= delay
    /\ (timer_raises w = false -> In (Timer_start delay) (calls s')).
Proof.
  intros Hs.
  destruct (cycle_runs s Hs) as (r & s' & new & Hrun & _ & Hset & Hok & _).
  cbv zeta in Hset, Hok.
  exists r, s'. eexists. split; [exact Hrun|]. split; [exact Hset|]. split.
  - pose proof (tmoSeconds_nonneg
                  (account_for_drift <$> fetched MAX_RETRIES_AT_FAILURE 0)). lia.
  - intros Htimer. destruct (Hok Htimer) as (_ & _ & _ & Ht).
    unfold calls. rewrite Ht, !map_app. apply in_or_app. right.
    apply in_or_app. right. apply in_or_app. right. simpl. tauto.
Qed.

(** X5: for a snapshot whose next reading is not yet due and lies less than
    2^33 s ahead (the range in which the float holding the difference is
    exact to the microsecond), the timer fires more than 9 s and at most
    10 s after the moment the next reading is due; a next reading overdue
    by less than one second still counts as on time (the truncated
    difference is 0 and the delay is 10 s, not 190 s), and one overdue by a
    second or more gives 190 s. *)
Theorem wake_up_window d :
  let due := nextReading d in
  let now := now_pump_tz w in
  let delay := tmoSeconds (Some d) + 10 in
  (now <= due -> due - now < 2 ^ 33 * 1000000 ->
   due + 9000000 < now + delay * 1000000 <= due + 10000000)
  /\ (due < now < due + 1000000 -> delay = 10)
  /\ (due + 1000000 <= now -> delay = 190).
Proof.
  intros due now delay. unfold delay, tmoSeconds, int_total_seconds.
  fold due. fold now.
  pose proof (Z.quot_rem' (due - now) 1000000) as Hqr.
  repeat split.
  - pose proof (Z.rem_bound_pos (due - now) 1000000 ltac:(lia) ltac:(lia)).
    destruct (Z.ltb_spec ((due - now) ÷ 1000000) 0); lia.
  - pose proof (Z.rem_bound_pos (due - now) 1000000 ltac:(lia) ltac:(lia)).
    destruct (Z.ltb_spec ((due - now) ÷ 1000000) 0); lia.
  - intros Hlate.
    pose proof (Z.rem_bound_pos_neg (due - now) 1000000 ltac:(lia) ltac:(lia)).
    destruct (Z.ltb_spec ((due - now) ÷ 1000000) 0); lia.
  - intros Hlate.
    pose proof (Z.rem_bound_pos_neg (due - now) 1000000 ltac:(lia) ltac:(lia)).
    destruct (Z.ltb_spec ((due - now) ÷ 1000000) 0); unfold RETRY_INTERVAL; lia.
Qed.

(** ** Cleaning an option value *)

Lemma split_hash_0_no_hash s : ~ occurs "#" (split_hash_0 s).
Proof.
  unfold occurs. induction s as [|a s IH]; simpl; [tauto|].
  destruct (Ascii.eqb_spec a "#") as [->|Hne]; simpl; [tauto|].
  intros [E|H]; [congruence | exact (IH H)].
Qed.

Lemma split_hash_0_app a b :
  ~ occurs "#" a -> split_hash_0 (a +:+ String "#" b) = a.
Proof.
  unfold occurs. induction a as [|c a IH]; simpl; intros H.
  - reflexivity.
  - destruct (Ascii.eqb_spec c "#") as [->|Hne]; [tauto|].
    rewrite IH; [reflexivity | tauto].
Qed.

Lemma split_hash_0_id a : ~ occurs "#" a -> split_hash_0 a = a.
Proof.
  unfold occurs. induction a as [|c a IH]; simpl; intros H; [reflexivity|].
  destruct (Ascii.eqb_spec c "#") as [->|Hne]; [tauto|].
  rewrite IH; [reflexivity | tauto].
Qed.

(** X7: taking the text before the first hash sign drops a trailing
    comment: the result never contains a hash sign, a value followed by a
    hash sign and anything else is cut back to the value, and a value
    without hash sign is unchanged. *)
Theorem split_hash_0_drops_comment s :
  ~ occurs "#" (split_hash_0 s)
  /\ (forall a b, ~ occurs "#" a -> s = a +:+ String "#" b -> split_hash_0 s = a)
  /\ (~ occurs "#" s -> split_hash_0 s = s).
Proof.
  split; [apply split_hash_0_no_hash|]. split.
  - intros a b Ha ->. now apply split_hash_0_app.
  - apply split_hash_0_id.
Qed.

Lemma lstrip_first c s : first_char (lstrip c s) <> Some c.
Proof.
  induction s as [|a s IH]; simpl; [discriminate|].
  destruct (Ascii.eqb_spec a c) as [->|Hne]; [exact IH|].
  simpl. congruence.
Qed.

Lemma lstrip_id c s : first_char s <> Some c -> lstrip c s = s.
Proof.
  destruct s as [|a s]; simpl; intros H; [reflexivity|].
  destruct (Ascii.eqb_spec a c) as [->|Hne]; [congruence | reflexivity].
Qed.

Lemma rstrip_first c s : first_char s <> Some c -> first_char (rstrip c s) <> Some c.
Proof.
  destruct s as [|a s]; simpl; intros H; [discriminate|].
  destruct (rstrip c s); [|simpl; exact H].
  destruct (Ascii.eqb_spec a c) as [->|Hne]; simpl; congruence.
Qed.

Lemma rstrip_last c s : last_char (rstrip c s) <> Some c.
Proof.
  induction s as [|a s IH]; simpl; [discriminate|].
  destruct (rstrip c s) as [|b r].
  - destruct (Ascii.eqb_spec a c) as [->|Hne]; simpl; congruence.
  - exact IH.
Qed.

Lemma rstrip_id c s : last_char s <> Some c -> rstrip c s = s.
Proof.
  induction s as [|a s IH]; simpl; intros H; [reflexivity|].
  destruct s as [|b s].
  - simpl. destruct (Ascii.eqb_spec a c) as [->|Hne]; [congruence | reflexivity].
  - rewrite (IH H). reflexivity.
Qed.

(** X8: stripping a character leaves a text that neither starts nor ends
    with it, and stripping again changes nothing. *)
Theorem strip_removes_both_ends c s :
  first_char (strip c s) <> Some c
  /\ last_char (strip c s) <> Some c
  /\ strip c (strip c s) = strip c s.
Proof.
  assert (first_char (strip c s) <> Some c) as Hf
    by (apply rstrip_first, lstrip_first).
  assert (last_char (strip c s) <> Some c) as Hl by apply rstrip_last.
  split; [exact Hf|]. split; [exact Hl|].
  unfold strip at 1. rewrite (lstrip_id _ _ Hf). now apply rstrip_id.
Qed.

Lemma append_cons x (a b : string) : String x a +:+ b = String x (a +:+ b).
Proof. reflexivity. Qed.

Lemma append_nil (b : string) : EmptyString +:+ b = b.
Proof. reflexivity. Qed.

Lemma append_assoc_string (a b c : string) : (a +:+ b) +:+ c = a +:+ (b +:+ c).
Proof.
  induction a as [|x a IH]; [reflexivity|]. rewrite !append_cons. now rewrite IH.
Qed.

Lemma occurs_app c a b : occurs c (a +:+ b) <-> occurs c a \/ occurs c b.
Proof.
  unfold occurs. induction a as [|x a IH].
  - rewrite append_nil. simpl. tauto.
  - rewrite append_cons. simpl. rewrite IH. tauto.
Qed.

Lemma first_char_app a b : a <> EmptyString -> first_char (a +:+ b) = first_char a.
Proof. destruct a; [congruence | reflexivity]. Qed.

Lemma last_char_app a x : last_char (a +:+ String x EmptyString) = Some x.
Proof.
  induction a as [|y a IH]; [reflexivity|]. rewrite append_cons. simpl.
  destruct (a +:+ String x EmptyString) eqn:E; [|exact IH].
  destruct a; discriminate E.
Qed.

Lemma rstrip_app_same c a : rstrip c (a +:+ String c EmptyString) = rstrip c a.
Proof.
  induction a as [|y a IH].
  - rewrite append_nil. simpl. now rewrite Ascii.eqb_refl.
  - rewrite append_cons. simpl. now rewrite IH.
Qed.

Lemma lstrip_cons_same c s : lstrip c (String c s) = lstrip c s.
Proof. simpl. now rewrite Ascii.eqb_refl. Qed.

(** X9: a double-quoted value directly followed by a comment is cleaned to
    the bare value, but when a space separates the closing quote from the
    hash sign the quote is not stripped: the cleaned text is the value
    followed by the quote and the space. *)
Theorem quoted_value_before_comment body comment c0 :
  ~ occurs "#" body ->
  first_char body = Some c0 -> c0 <> double_quote -> c0 <> single_quote ->
  last_char body <> Some double_quote -> last_char body <> Some single_quote ->
  unquote (String double_quote body +:+ String double_quote (String "#" comment))
  = body
  /\ unquote (String double_quote body
              +:+ String double_quote (String " " (String "#" comment)))
     = body +:+ String double_quote (String " " EmptyString).
Proof.
  intros Hhash Hfirst Hdq Hsq Hldq Hlsq.
  assert (body <> EmptyString) as Hne by (intros ->; discriminate Hfirst).
  assert (double_quote <> "#"%char) as Hd by discriminate.
  split; unfold unquote.
  - change (String double_quote (String "#" comment))
      with (String double_quote EmptyString +:+ String "#" comment).
    rewrite <- append_assoc_string, split_hash_0_app.
    2:{ rewrite occurs_app. unfold occurs at 1 2. simpl.
        intros [[E|H]|[E|[]]]; try congruence. exact (Hhash H). }
    rewrite append_cons. unfold strip at 2. rewrite lstrip_cons_same.
    rewrite lstrip_id
      by (rewrite first_char_app, Hfirst by exact Hne; congruence).
    rewrite rstrip_app_same, (rstrip_id _ _ Hldq).
    unfold strip. rewrite lstrip_id by (rewrite Hfirst; congruence).
    now apply rstrip_id.
  - change (String double_quote (String " " (String "#" comment)))
      with (String double_quote (String " " EmptyString) +:+ String "#" comment).
    rewrite <- append_assoc_string, split_hash_0_app.
    2:{ rewrite occurs_app. unfold occurs at 1 2. simpl.
        intros [[E|H]|[E|[E|[]]]]; try congruence; try discriminate E.
        exact (Hhash H). }
    assert (last_char (body +:+ String double_quote (String " " EmptyString)) = Some " "%char)
      as Hlast.
    { change (String double_quote (String " " EmptyString))
        with (String double_quote EmptyString +:+ String " " EmptyString).
      rewrite <- append_assoc_string. apply last_char_app. }
    rewrite append_cons. unfold strip at 2. rewrite lstrip_cons_same.
    rewrite lstrip_id
      by (rewrite first_char_app, Hfirst by exact Hne; congruence).
    rewrite rstrip_id by (rewrite Hlast; discriminate).
    unfold strip. rewrite lstrip_id
      by (rewrite first_char_app, Hfirst by exact Hne; congruence).
    apply rstrip_id. rewrite Hlast. discriminate.
Qed.

(** ** The exception table *)

Lemma defined_codes_range k :
  is_Some (defined_codes !! k) <-> 0x0300 <= k <= 0x030C.
Proof.
  split.
  - intros [v Hv].
    destruct (decide (0x0300 <= k <= 0x030C)) as [Hin|Hout]; [exact Hin|].
    exfalso. revert Hv.
    unfold defined_codes, dict_literal, SENSOR_OK, SENSOR_INIT, SENSOR_CAL_NEEDED,
      SENSOR_ERROR, SENSOR_CAL_ERROR, SENSOR_CHANGE_SENSOR, SENSOR_END_OF_LIFE,
      SENSOR_NOT_READY, SENSOR_READING_HIGH, SENSOR_READING_LOW, SENSOR_CAL_PENDING,
      SENSOR_CHANGE_CAL_ERROR, SENSOR_TIME_UNKNOWN.
    cbn [foldl fst snd].
    rewrite !lookup_insert_ne by lia. now rewrite lookup_empty.
  - intros Hk.
    assert (k = 768 \/ k = 769 \/ k = 770 \/ k = 771 \/ k = 772 \/ k = 773 \/ k = 774
            \/ k = 775 \/ k = 776 \/ k = 777 \/ k = 778 \/ k = 779 \/ k = 780) as Hcases
      by lia.
    repeat (destruct Hcases as [->|Hcases]; [eexists; reflexivity|]).
    subst k. eexists; reflexivity.
Qed.

Lemma outside_table k :
  ~ In k (enumerated_exceptions.*1) -> k <> SENSOR_OK ->
  sensor_exception_codes !! k = None.
Proof.
  intros Hnot Hok.
  assert (k <> SENSOR_LOST) as Hlost.
  { intros ->. apply Hnot. simpl. auto 20. }
  rewrite (lookup_other_code _ Hlost).
  destruct (defined_codes !! k) as [v|] eqn:E; [|reflexivity].
  exfalso.
  assert (0x0300 <= k <= 0x030C) as Hk by (apply defined_codes_range; eauto).
  unfold SENSOR_OK in Hok.
  assert (k = 769 \/ k = 770 \/ k = 771 \/ k = 772 \/ k = 773 \/ k = 774
          \/ k = 775 \/ k = 776 \/ k = 777 \/ k = 778 \/ k = 779 \/ k = 780) as Hcases
    by lia.
  apply Hnot.
  repeat (destruct Hcases as [->|Hcases]; [simpl; auto 20|]).
  subst k. simpl. auto 20.
Qed.

(** C3, amended: for every snapshot whose reading is neither one of the
    thirteen enumerated exception codes nor [SENSOR_OK], the tier shown on
    the gauge is decided by first match in this order: suspended when a
    suspend flag is set; else alert when the reading is below the low
    bound, above the high bound or an on-low/on-high flag is set; else
    pre-alert when the reading is below the pre-low bound, above the
    pre-high bound or a before-low/before-high flag is set; else normal.
    When several conditions hold the tier of highest precedence is shown. *)
Theorem regular_severity_precedence data s :
  ~ In (sensorBGL data) (enumerated_exceptions.*1) ->
  sensorBGL data <> SENSOR_OK ->
  (forall n, blynk_raises w n = false) ->
  exists s' shown tier,
    upload_sensor data s = (Returns tt, s')
    /\ calls s' = calls s ++ shown
    /\ displayed_severity shown = Some tier
    /\ tier = first_match (severity_rules cfg) data
    /\ (suspend_condition data = true -> tier = suspended)
    /\ (suspend_condition data = false -> alert_condition cfg data = true ->
        tier = alert)
    /\ (suspend_condition data = false -> alert_condition cfg data = false ->
        pre_alert_condition cfg data = true -> tier = pre_alert)
    /\ (suspend_condition data = false -> alert_condition cfg data = false ->
        pre_alert_condition cfg data = false -> tier = normal).
Proof.
  intros Hnot Hok Hblynk.
  exact (regular_severity_first_match data s
           (outside_table (sensorBGL data) Hnot Hok) Hblynk).
Qed.

(** X10: a reading is treated as a sensor exception exactly when it lies
    between 0x0300 and 0x030C or equals [SENSOR_LOST]; every other reading,
    also one above 0x030C, is shown as a regular glucose value. *)
Theorem sensor_exception_codes_domain k :
  is_Some (sensor_exception_codes !! k) <-> (0x0300 <= k <= 0x030C \/ k = SENSOR_LOST).
Proof.
  destruct (decide (k = SENSOR_LOST)) as [->|Hne].
  - rewrite lookup_SENSOR_LOST. split; [auto | eauto].
  - rewrite (lookup_other_code _ Hne), defined_codes_range. tauto.
Qed.

(** ** Correcting twice *)

(** X11: correcting an already corrected snapshot changes it again unless
    the drift is zero: the correction is idempotent exactly for zero
    drift. *)
Theorem account_for_drift_idempotent_iff d :
  account_for_drift (account_for_drift d) = account_for_drift d <-> pumpTimeDrift d = 0.
Proof.
  split.
  - intros H. apply (f_equal pumpTime) in H. simpl in H. lia.
  - intros H. unfold account_for_drift. simpl. rewrite H, !Z.add_0_r.
    destruct (bool_decide (sensorBGL d <> SENSOR_LOST)); reflexivity.
Qed.

(** ** The cycle counter *)

(** A cycle that runs to its end advances the cycle counter by exactly one,
    with or without data and whatever the uploads did. *)
Lemma cycle_count_advances s :
  g_active (globals s) = false ->
  timer_raises w = false ->
  exists s',
    upload_live_data s = (Returns tt, s')
    /\ g_cycleCount (globals s') = g_cycleCount (globals s) + 1.
Proof.
  intros Hs Htimer.
  destruct (cycle_runs s Hs) as (r & s' & new & Hrun & _ & _ & Hok & _).
  destruct (Hok Htimer) as (-> & _ & Hc & _).
  exists s'. split; [exact Hrun | exact Hc].
Qed.

(** ** A gateway without Blynk *)

Lemma read_loop_frame numRetries attempt s :
  exists s' new,
    read_loop numRetries attempt s = (Returns (fetched numRetries attempt), s')
    /\ globals s' = globals s
    /\ blynk_calls s' = blynk_calls s
    /\ calls s' = calls s ++ new
    /\ Forall (fun c => is_blynk_call c = false) new.
Proof.
  revert attempt s. induction numRetries as [|n IH]; intros a s.
  - exists s, []. rewrite app_nil_r. repeat split; auto.
  - simpl fetched. destruct (driver_read w a) as [|data] eqn:E.
    + rewrite (read_loop_raise_step _ _ _ E).
      destruct (0 <? n)%nat.
      * erewrite bind_returns by reflexivity.
        destruct (IH (S a) (log (sleep RETRY_DELAY) (log (syslog read_error_msg) s).2).2)
          as (s' & new & Hrun & Hg & Hb & Hc & Hnew).
        exists s', (syslog read_error_msg :: sleep RETRY_DELAY :: new).
        split; [exact Hrun|]. split; [exact Hg|]. split; [exact Hb|]. split.
        -- rewrite Hc, !calls_log. now rewrite <- !app_assoc.
        -- repeat constructor; assumption.
      * erewrite bind_returns by reflexivity.
        destruct (IH (S a) (log (syslog read_error_msg) s).2)
          as (s' & new & Hrun & Hg & Hb & Hc & Hnew).
        exists s', (syslog read_error_msg :: new).
        split; [exact Hrun|]. split; [exact Hg|]. split; [exact Hb|]. split.
        -- rewrite Hc, !calls_log. now rewrite <- !app_assoc.
        -- repeat constructor; assumption.
    + rewrite (read_loop_return_step _ _ _ _ E).
      eexists. exists [readLiveData].
      split; [reflexivity|]. split; [reflexivity|]. split; [reflexivity|].
      split; [apply calls_log | repeat constructor].
Qed.

(** X14: when Blynk is not configured (empty token or server), a cycle makes
    no call on the Blynk client at all and leaves the stored bolus time as
    it was, whatever the driver, Nightscout and the timer do. *)
Theorem no_blynk_call_when_disabled s :
  blynk_enabled cfg = false ->
  g_active (globals s) = false ->
  exists r s' new,
    upload_live_data s = (r, s')
    /\ calls s' = calls s ++ new
    /\ Forall (fun c => is_blynk_call c = false) new
    /\ g_lastBolusTime (globals s') = g_lastBolusTime (globals s)
    /\ blynk_calls s' = blynk_calls s.
Proof.
  intros Hoff Hs. unfold upload_live_data.
  erewrite bind_returns by reflexivity. rewrite Hs.
  erewrite bind_returns by reflexivity.
  match goal with
  | |- exists r s' new, _ ?s1 = _ /\ _ =>
      destruct (read_loop_frame MAX_RETRIES_AT_FAILURE 0 s1)
        as (s2 & new1 & E1 & Hg1 & Hb1 & Hc1 & Hn1)
  end.
  erewrite bind_returns by exact E1. rewrite Hoff.
  erewrite bind_returns by reflexivity.
  simpl in Hb1.
  assert (g_active (globals s2) = true) as Ha2 by (now rewrite Hg1).
  destruct (nightscout_step
              (account_for_drift <$> fetched MAX_RETRIES_AT_FAILURE 0) s2 Ha2)
    as (s3 & E3 & Hg3 & Ht3).
  assert (blynk_calls s3 = blynk_calls s2) as Hb3.
  { revert E3. unfold try_except, nightscout, log.
    destruct (nightscout_enabled cfg); [destruct (nightscout_raises w)|];
      intros [= <-]; reflexivity. }
  erewrite bind_returns by exact E3.
  assert (calls s3 = calls s
                     ++ new1
                     ++ map snd (nightscout_step_log
                                   (account_for_drift <$> fetched MAX_RETRIES_AT_FAILURE 0)))
    as Hc3.
  { unfold calls in *. rewrite Ht3, map_app, Hc1. simpl. now rewrite <- app_assoc. }
  assert (Forall (fun c => is_blynk_call c = false)
            (map snd (nightscout_step_log
                        (account_for_drift <$> fetched MAX_RETRIES_AT_FAILURE 0)))) as Hn3.
  { unfold nightscout_step_log.
    destruct (nightscout_enabled cfg); [destruct (nightscout_raises w)|];
      repeat constructor. }
  unfold start_timer. unfold Timer_start_call.
  destruct (timer_raises w).
  - erewrite bind_raises by (erewrite bind_returns by reflexivity; reflexivity).
    exists Raises. eexists. eexists. split; [reflexivity|]. simpl.
    split; [exact Hc3|].
    split; [apply Forall_app; split; assumption|].
    rewrite Hg3, Hg1. split; [reflexivity|]. simpl. congruence.
  - erewrite bind_returns by (erewrite bind_returns by reflexivity; reflexivity).
    erewrite bind_returns by reflexivity.
    exists (Returns tt). eexists.
    exists (new1 ++ map snd (nightscout_step_log
                               (account_for_drift <$> fetched MAX_RETRIES_AT_FAILURE 0))
            ++ [Timer_start (tmoSeconds (account_for_drift
                                          <$> fetched MAX_RETRIES_AT_FAILURE 0) + 10)]).
    split; [reflexivity|]. split.
    + unfold calls in *. simpl. rewrite map_app, Hc3. simpl.
      now rewrite <- !app_assoc.
    + split.
      * apply Forall_app; split; [assumption|].
        apply Forall_app; split; [assumption | repeat constructor].
      * simpl. rewrite Hg3, Hg1. split; [reflexivity|]. simpl. congruence.
Qed.

(** ** Flags only escalate *)

Lemma conditions_monotone d d' :
  sensorBGL d' = sensorBGL d ->
  flags_le (pumpAlert d) (pumpAlert d') ->
  (suspend_condition d = true -> suspend_condition d' = true)
  /\ (alert_condition cfg d = true -> alert_condition cfg d' = true)
  /\ (pre_alert_condition cfg d = true -> pre_alert_condition cfg d' = true).
Proof.
  intros Hbgl (H1 & H2 & H3 & H4 & H5 & H6).
  unfold suspend_condition, alert_condition, pre_alert_condition. rewrite Hbgl.
  repeat split; rewrite !orb_true_iff; tauto.
Qed.

(** X15: for a regular reading, setting further alert flags never lowers the
    tier shown on the gauge: with the same reading and at least the same
    flags the tier is the same or a higher one. *)
Theorem flags_only_escalate d d' s s0 :
  sensorBGL d' = sensorBGL d ->
  flags_le (pumpAlert d) (pumpAlert d') ->
  sensor_exception_codes !! sensorBGL d = None ->
  (forall n, blynk_raises w n = false) ->
  exists s1 s1' shown shown' tier tier',
    upload_sensor d s = (Returns tt, s1)
    /\ calls s1 = calls s ++ shown
    /\ displayed_severity shown = Some tier
    /\ upload_sensor d' s0 = (Returns tt, s1')
    /\ calls s1' = calls s0 ++ shown'
    /\ displayed_severity shown' = Some tier'
    /\ (rank tier <= rank tier')%nat.
Proof.
  intros Hbgl Hle Hcode Hok.
  assert (sensor_exception_codes !! sensorBGL d' = None) as Hcode'
    by (now rewrite Hbgl).
  destruct (regular_branch d s Hcode Hok) as (s1 & Hrun & _ & Hcalls).
  destruct (regular_branch d' s0 Hcode' Hok) as (s1' & Hrun' & _ & Hcalls').
  exists s1, s1'. do 2 eexists.
  exists (first_match (severity_rules cfg) d), (first_match (severity_rules cfg) d').
  split; [exact Hrun|]. split; [exact Hcalls|].
  split; [apply displayed_severity_color|].
  split; [exact Hrun'|]. split; [exact Hcalls'|].
  split; [apply displayed_severity_color|].
  destruct (conditions_monotone d d' Hbgl Hle) as (Hs & Ha & Hp).
  unfold severity_rules, first_match.
  destruct (suspend_condition d), (suspend_condition d'),
    (alert_condition cfg d), (alert_condition cfg d'),
    (pre_alert_condition cfg d), (pre_alert_condition cfg d');
    simpl; try lia;
    try (specialize (Hs eq_refl); discriminate);
    try (specialize (Ha eq_refl); discriminate);
    try (specialize (Hp eq_refl); discriminate).
Qed.

(** ** The connection handlers *)

Lemma alternating_S n : alternating (S n) = alternating n ++ [alternating_notice n].
Proof. unfold alternating. now rewrite seq_S, map_app. Qed.

Lemma handle_event_invariant l e n :
  notices l = alternating n ->
  is_connected l = Nat.odd n ->
  exists n',
    notices (handle_event l e) = alternating n'
    /\ is_connected (handle_event l e) = Nat.odd n'
    /\ (n <= n' <= S n)%nat.
Proof.
  intros Hn Hc.
  destruct e; simpl; unfold connect_handler, disconnect_handler; rewrite Hc.
  - destruct (Nat.odd n) eqn:Ho; simpl.
    + exists n. repeat split; auto; try lia; congruence.
    + exists (S n). rewrite alternating_S, Hn. unfold alternating_notice.
      rewrite <- Nat.negb_odd, Ho, Nat.odd_succ, <- Nat.negb_odd, Ho. simpl.
      repeat split; auto; try lia; congruence.
  - destruct (Nat.odd n) eqn:Ho; simpl.
    + exists (S n). rewrite alternating_S, Hn. unfold alternating_notice.
      rewrite <- Nat.negb_odd, Ho, Nat.odd_succ, <- Nat.negb_odd, Ho. simpl.
      repeat split; auto; try lia; congruence.
    + exists n. repeat split; auto; try lia; congruence.
Qed.

(** X16: whatever sequence of connect and disconnect events Blynk delivers
    after start-up, the notices written to syslog alternate between
    connected and disconnected, starting with connected: a repeated event
    logs nothing, and the flag [is_connected] is set exactly when the last
    notice is a connection. *)
Theorem link_notices_alternate (events : list link_event) :
  exists n,
    notices (foldl handle_event initial_link events) = alternating n
    /\ is_connected (foldl handle_event initial_link events) = Nat.odd n
    /\ (n <= length events)%nat.
Proof.
  assert (forall l n0,
            notices l = alternating n0 -> is_connected l = Nat.odd n0 ->
            exists n,
              notices (foldl handle_event l events) = alternating n
              /\ is_connected (foldl handle_event l events) = Nat.odd n
              /\ (n <= n0 + length events)%nat) as Hgen.
  { induction events as [|e events IH]; intros l n0 Hn Hc.
    - exists n0. simpl. repeat split; auto. lia.
    - destruct (handle_event_invariant l e n0 Hn Hc) as (n1 & Hn1 & Hc1 & Hb).
      destruct (IH _ n1 Hn1 Hc1) as (n & Hn2 & Hc2 & Hb2).
      exists n. simpl. repeat split; auto. lia. }
  apply (Hgen initial_link 0%nat); reflexivity.
Qed.

End Gateway.

(** ** The theorems at the sample inputs *)

Lemma sensor_exception_display_witness :
  exists s' shown,
    upload_sensor sample_builtins sample_SENSOR_LOST sample_SENSOR_LOST_STR sample_cfg
      sample_world (with_sensorBGL SENSOR_CAL_ERROR sample_data) initial_state
    = (Returns tt, s')
    /\ calls s' = shown
    /\ displayed_severity shown = Some sensor_fault.
Proof.
  destruct (sensor_exception_display sample_builtins sample_SENSOR_LOST
              sample_SENSOR_LOST_STR sample_cfg sample_world
              (with_sensorBGL SENSOR_CAL_ERROR sample_data) initial_state
              SENSOR_CAL_ERROR SENSOR_CAL_ERROR_STR)
    as (s' & shown & Hrun & _ & Hcalls & _ & Hsev).
  - apply list_elem_of_In. simpl. tauto.
  - apply (bool_decide_unpack _). vm_compute. exact I.
  - reflexivity.
  - reflexivity.
  - exists s', shown. repeat split; assumption.
Defined.

Lemma regular_severity_precedence_witness :
  let suspended_high :=
    with_pumpAlert {| alertSuspend := true; alertSuspendLow := false;
                      alertOnLow := false; alertOnHigh := true;
                      alertBeforeLow := true; alertBeforeHigh := false |}
      (with_sensorBGL 300 sample_data) in
  let high_and_before :=
    with_pumpAlert {| alertSuspend := false; alertSuspendLow := false;
                      alertOnLow := false; alertOnHigh := false;
                      alertBeforeLow := true; alertBeforeHigh := true |}
      (with_sensorBGL 300 sample_data) in
  (exists s' shown,
     upload_sensor sample_builtins sample_SENSOR_LOST sample_SENSOR_LOST_STR sample_cfg
       sample_world suspended_high initial_state = (Returns tt, s')
     /\ calls s' = shown
     /\ alert_condition sample_cfg suspended_high = true
     /\ pre_alert_condition sample_cfg suspended_high = true
     /\ displayed_severity shown = Some suspended)
  /\ (exists s' shown,
        upload_sensor sample_builtins sample_SENSOR_LOST sample_SENSOR_LOST_STR sample_cfg
          sample_world high_and_before initial_state = (Returns tt, s')
        /\ calls s' = shown
        /\ pre_alert_condition sample_cfg high_and_before = true
        /\ displayed_severity shown = Some alert).
Proof.
  intros suspended_high high_and_before.
  assert (~ In 300 ((enumerated_exceptions sample_SENSOR_LOST sample_SENSOR_LOST_STR).*1))
    as Hnot.
  { simpl. intros H. repeat (destruct H as [H|H]; [discriminate H|]). exact H. }
  split.
  - destruct (regular_severity_precedence sample_builtins sample_SENSOR_LOST
                sample_SENSOR_LOST_STR sample_cfg sample_world suspended_high
                initial_state Hnot)
      as (s' & shown & tier & Hrun & Hcalls & Hsev & _ & Hsusp & _).
    + discriminate.
    + reflexivity.
    + exists s', shown. rewrite (Hsusp eq_refl) in Hsev. repeat split; assumption.
  - destruct (regular_severity_precedence sample_builtins sample_SENSOR_LOST
                sample_SENSOR_LOST_STR sample_cfg sample_world high_and_before
                initial_state Hnot)
      as (s' & shown & tier & Hrun & Hcalls & Hsev & _ & _ & Halert & _).
    + discriminate.
    + reflexivity.
    + exists s', shown. rewrite (Halert eq_refl eq_refl) in Hsev.
      repeat split; assumption.
Defined.

(** C3 as stated fails: [SENSOR_OK] is none of the thirteen enumerated
    codes, the ordered rules would rank a reading of 0x0300 as an alert
    (it is above the high bound), but the uploader shows it as a sensor
    fault. *)
Lemma SENSOR_OK_reading_not_ranked :
  let data := with_sensorBGL SENSOR_OK sample_data in
  let out := upload_sensor sample_builtins sample_SENSOR_LOST sample_SENSOR_LOST_STR
               sample_cfg sample_world data initial_state in
  ~ In (sensorBGL data)
       ((enumerated_exceptions sample_SENSOR_LOST sample_SENSOR_LOST_STR).*1)
  /\ first_match (severity_rules sample_cfg) data = alert
  /\ out.1 = Returns tt
  /\ displayed_severity (calls out.2) = Some sensor_fault
  /\ displayed_severity (calls out.2)
     <> Some (first_match (severity_rules sample_cfg) data).
Proof.
  intros data out. split.
  - simpl. intros H. repeat (destruct H as [H|H]; [discriminate H|]). exact H.
  - vm_compute. repeat split. discriminate.
Qed.

Lemma battery_and_reservoir_bands_witness :
  exists s' shown,
    (upload_battery sample_world sample_data;; upload_reservoir sample_world sample_data)
      initial_state = (Returns tt, s')
    /\ calls s' = shown
    /\ first_color VPIN_BATTERY shown = Some BLYNK_GREEN
    /\ first_color VPIN_UNITS shown = Some BLYNK_YELLOW.
Proof.
  destruct (battery_and_reservoir_bands sample_world sample_data initial_state)
    as (s' & shown & v & bb & rb & Hrun & Hcalls & Hv & _ & Hbc & Hrc
        & (_ & _ & Hb3) & (_ & Hr2 & _) & _).
  - reflexivity.
  - exists s', shown. split; [exact Hrun|]. split; [exact Hcalls|].
    rewrite Hbc, Hrc, Hb3, Hr2; [split; reflexivity | | ].
    + split; [reflexivity | discriminate].
    + rewrite Hv. reflexivity.
Defined.

Lemma bolus_change_detection_witness :
  exists s',
    upload_bolus sample_builtins sample_world sample_data initial_state = (Returns tt, s')
    /\ g_lastBolusTime (globals s') = Some 1604922000
    /\ calls s' = [].
Proof.
  destruct (bolus_change_detection sample_builtins sample_world sample_data initial_state)
    as (s' & shown & Hrun & Hcalls & Hdiff & _ & _).
  - reflexivity.
  - destruct Hdiff as (Hlast & _ & _ & _ & _ & Hstale); [discriminate|].
    exists s'. split; [exact Hrun|]. split; [exact Hlast|].
    rewrite Hcalls, Hstale; [reflexivity|]. vm_compute. discriminate.
Defined.

Lemma cycle_guard_and_rearm_witness :
  exists s',
    upload_live_data sample_builtins sample_SENSOR_LOST sample_SENSOR_LOST_STR sample_cfg
      sample_world initial_state = (Returns tt, s')
    /\ g_active (globals s') = false
    /\ timers_started s' = 1%nat.
Proof.
  destruct (cycle_guard_and_rearm sample_builtins sample_SENSOR_LOST
              sample_SENSOR_LOST_STR sample_cfg sample_world initial_state)
    as [_ Hcycle].
  destruct Hcycle as (r & s' & new & Hrun & _ & _ & Hdone); [reflexivity|].
  destruct Hdone as (-> & Ha & Ht); [reflexivity|].
  exists s'. repeat split; assumption.
Defined.

(** C4 as stated fails: when starting the timer raises, the exception
    leaves the cycle, the guard stays set and no timer is started. *)
Lemma guard_left_set_when_timer_start_raises :
  let out := upload_live_data sample_builtins sample_SENSOR_LOST sample_SENSOR_LOST_STR
               sample_cfg timer_failure_world initial_state in
  out.1 = Raises
  /\ g_active (globals out.2) = true
  /\ timers_started out.2 = 0%nat.
Proof. vm_compute. repeat split. Qed.

Lemma timer_delay_witness :
  exists s',
    upload_live_data sample_builtins sample_SENSOR_LOST sample_SENSOR_LOST_STR sample_cfg
      sample_world initial_state = (Returns tt, s')
    /\ g_cycleTimer (globals s') = Some 67
    /\ In (Timer_start 67) (calls s').
Proof.
  destruct (timer_delay sample_builtins sample_SENSOR_LOST sample_SENSOR_LOST_STR
              sample_cfg sample_world initial_state eq_refl)
    as (r & s' & delay & Hrun & Hset & Hstart & Hsome & _).
  destruct (Hsome (account_for_drift sample_SENSOR_LOST sample_data) eq_refl)
    as (_ & _ & Hpos & _).
  assert (delay = 67) as -> by (rewrite Hpos; vm_compute; [reflexivity | discriminate]).
  exists s'. split; [|split; [exact Hset | exact (Hstart eq_refl)]].
  rewrite Hrun. f_equal. vm_compute in Hrun. now injection Hrun as <- _.
Defined.

(** C2 as stated fails: 5 s after the next reading was due the delay of the
    specification is 5 s, not negative, so no fallback applies; the code
    tests the sign before adding the margin and starts the timer with
    180 + 10 = 190 s. *)
Lemma late_cycle_delay_differs :
  let d := account_for_drift sample_SENSOR_LOST sample_data in
  let out := upload_live_data sample_builtins sample_SENSOR_LOST sample_SENSOR_LOST_STR
               sample_cfg late_world initial_state in
  spec_delay (sensorBGLTimestamp d) (now_pump_tz late_world) = 5
  /\ out.1 = Returns tt
  /\ g_cycleTimer (globals out.2) = Some 190
  /\ In (Timer_start 190) (calls out.2)
  /\ ~ In (Timer_start 5) (calls out.2).
Proof.
  vm_compute. repeat split; auto 20.
  intros H. repeat (destruct H as [H|H]; [discriminate H|]). exact H.
Qed.

Lemma drift_correction_witness :
  let lost := with_sensorBGL sample_SENSOR_LOST sample_data in
  sensorBGLTimestamp (account_for_drift sample_SENSOR_LOST sample_data)
  = sensorBGLTimestamp sample_data + 7000000
  /\ sensorBGLTimestamp (account_for_drift sample_SENSOR_LOST lost)
     = sensorBGLTimestamp lost
  /\ account_for_drift sample_SENSOR_LOST sample_data <> sample_data
  /\ exists r s' s1 s2,
       upload_live_data sample_builtins sample_SENSOR_LOST sample_SENSOR_LOST_STR
         sample_cfg sample_world initial_state = (r, s')
       /\ try_except
            (blynk_upload sample_builtins sample_SENSOR_LOST sample_SENSOR_LOST_STR
               sample_cfg sample_world
               (Some (account_for_drift sample_SENSOR_LOST sample_data)))
            (log (syslog "Blynk upload ERROR")) s1 = (Returns tt, s2)
       /\ (exists rest, trace s' = trace s2 ++ rest)
       /\ In (nightscout_upload (Some (account_for_drift sample_SENSOR_LOST sample_data)))
            (calls s').
Proof.
  intros lost.
  destruct (drift_correction sample_builtins sample_SENSOR_LOST sample_SENSOR_LOST_STR
              sample_cfg sample_world sample_data initial_state)
    as (_ & Hshift & _ & _ & Hdiff & Hcycle).
  destruct (drift_correction sample_builtins sample_SENSOR_LOST sample_SENSOR_LOST_STR
              sample_cfg sample_world lost initial_state)
    as (_ & _ & Hkeep & _ & _).
  split; [apply Hshift; discriminate|]. split; [apply Hkeep; reflexivity|].
  split; [apply Hdiff; discriminate|].
  destruct Hcycle as (r & s' & s1 & s2 & Hrun & _ & Hblynk & _ & Ht & _ & Hns);
    [reflexivity | reflexivity |].
  exists r, s', s1, s2. split; [exact Hrun|]. split; [exact Hblynk|].
  split; [eexists; exact Ht|]. apply Hns; reflexivity.
Defined.

Lemma zero_threshold_disabled_witness :
  bgl_high_val zero_high_cfg = 1000
  /\ bgl_pre_high_val zero_high_cfg = 1000
  /\ (1000 >? bgl_high_val zero_high_cfg) = false.
Proof.
  destruct (zero_threshold_disabled sample_builtins zero_high_raw zero_high_cfg eq_refl)
    as [Hhigh Hpre].
  destruct (Hhigh "0"%string eq_refl eq_refl) as (Eh & Hcmp & _).
  destruct (Hpre "0"%string eq_refl eq_refl) as (Ep & _ & _).
  split; [exact Eh|]. split; [exact Ep|]. apply Hcmp. lia.
Defined.

(** C5 as stated fails: with the high threshold configured as zero the
    bound is 1000, and a reading of 1001, which is in no exception table,
    exceeds it and is shown as an alert. *)
Lemma disabled_bound_fires_above_1000 :
  let out := upload_sensor sample_builtins sample_SENSOR_LOST sample_SENSOR_LOST_STR
               zero_high_cfg sample_world (with_sensorBGL 1001 sample_data)
               initial_state in
  read_config sample_builtins zero_high_raw = Some zero_high_cfg
  /\ to_int sample_builtins (unquote "0") = 0
  /\ (1001 >? bgl_high_val zero_high_cfg) = true
  /\ out.1 = Returns tt
  /\ displayed_severity (calls out.2) = Some alert.
Proof. vm_compute. repeat split. Qed.

Lemma malformed_threshold_disabled_witness :
  exists c,
    read_config sample_builtins malformed_high_raw = Some c
    /\ bgl_pre_high_val c = 1000
    /\ bgl_high_val c = 1000.
Proof.
  destruct (malformed_threshold_disabled sample_builtins malformed_high_raw)
    as [_ Hread].
  destruct Hread as (c & Hc & Hpre & Hhigh).
  - unfold all_options_present. simpl. repeat split; eexists; reflexivity.
  - exists c. split; [exact Hc|].
    split; [exact (proj1 (Hpre _ eq_refl eq_refl)) | exact (proj1 (Hhigh _ eq_refl eq_refl))].
Defined.

Lemma SENSOR_OK_is_sensor_fault_witness :
  sensor_exception_codes sample_SENSOR_LOST sample_SENSOR_LOST_STR !! SENSOR_OK
  = Some SENSOR_OK_STR
  /\ exists s' shown,
       upload_sensor sample_builtins sample_SENSOR_LOST sample_SENSOR_LOST_STR sample_cfg
         sample_world (with_sensorBGL SENSOR_OK sample_data) initial_state
       = (Returns tt, s')
       /\ calls s' = shown
       /\ displayed_severity shown = Some sensor_fault.
Proof.
  destruct (SENSOR_OK_is_sensor_fault sample_builtins sample_SENSOR_LOST
              sample_SENSOR_LOST_STR sample_cfg sample_world
              (with_sensorBGL SENSOR_OK sample_data) initial_state eq_refl)
    as (_ & _ & _ & Htable & s' & shown & Hrun & Hcalls & _ & _ & _ & Hsev).
  - reflexivity.
  - split; [apply Htable; discriminate|].
    exists s', shown. repeat split; assumption.
Defined.

(** ** Across two cycles *)

(** X12: the battery bar alternates.  If a cycle run in world [w] finishes,
    the battery label a Blynk upload shows before it (with the counter the
    cycle itself used) and the one shown after it (the next cycle's) are
    the pump label and the sensor label, in one order or the other. *)
Theorem battery_slot_alternates B SENSOR_LOST SENSOR_LOST_STR cfg w w' data s :
  g_active (globals s) = false ->
  timer_raises w = false ->
  (forall n, blynk_raises w' n = false) ->
  exists s1 s2 s2' label label' rest rest',
    upload_live_data B SENSOR_LOST SENSOR_LOST_STR cfg w s = (Returns tt, s1)
    /\ upload_battery w' data s = (Returns tt, s2)
    /\ calls s2 = calls s ++ set_property VPIN_BATTERY "label" label :: rest
    /\ upload_battery w' data s1 = (Returns tt, s2')
    /\ calls s2' = calls s1 ++ set_property VPIN_BATTERY "label" label' :: rest'
    /\ ((label = "PUMP BATTERY %"%string /\ label' = "SENSOR BATTERY %"%string)
        \/ (label = "SENSOR BATTERY %"%string /\ label' = "PUMP BATTERY %"%string)).
Proof.
  intros Hs Htimer Hok.
  destruct (cycle_count_advances B SENSOR_LOST SENSOR_LOST_STR cfg w s Hs Htimer)
    as (s1 & Hrun & Hcount).
  destruct (battery_bar w' data s Hok)
    as (s2 & label & v & b & Hrun2 & _ & Hcalls2 & Heven & Hodd & _).
  destruct (battery_bar w' data s1 Hok)
    as (s2' & label' & v' & b' & Hrun2' & _ & Hcalls2' & Heven' & Hodd' & _).
  exists s1, s2, s2', label, label'. do 2 eexists.
  split; [exact Hrun|]. split; [exact Hrun2|]. split; [exact Hcalls2|].
  split; [exact Hrun2'|]. split; [exact Hcalls2'|].
  rewrite Hcount in Heven', Hodd'.
  pose proof (Z.mod_pos_bound (g_cycleCount (globals s)) 2 ltac:(lia)) as Hb.
  pose proof (Z.mod_pos_bound (g_cycleCount (globals s) + 1) 2 ltac:(lia)) as Hb'.
  pose proof (Z.div_mod (g_cycleCount (globals s)) 2 ltac:(lia)) as Hd.
  pose proof (Z.div_mod (g_cycleCount (globals s) + 1) 2 ltac:(lia)) as Hd'.
  destruct (Z.eq_dec (g_cycleCount (globals s) mod 2) 0) as [He|Hne].
  - left. split; [apply (Heven He) | apply Hodd'; lia].
  - right. split; [apply (Hodd Hne) | apply Heven'; lia].
Qed.

(** X13: a bolus amount can be lost.  When the write of the amount of a new,
    recent bolus raises, the new bolus time has already been stored and
    nothing was written; the next upload of the same snapshot, with Blynk
    working again, finds the bolus time unchanged and writes the active
    insulin, so the amount of that bolus is never written. *)
Theorem bolus_amount_lost_when_write_raises B w1 w2 data s :
  let t := strftime_s B (lastBolusTime data) in
  g_lastBolusTime (globals s) <> Some t ->
  time_time w1 - t < 2 * UPDATE_INTERVAL ->
  blynk_raises w1 (blynk_calls s) = true ->
  (forall n, blynk_raises w2 n = false) ->
  exists s1 s2,
    upload_bolus B w1 data s = (Raises, s1)
    /\ calls s1 = calls s
    /\ g_lastBolusTime (globals s1) = Some t
    /\ upload_bolus B w2 data s1 = (Returns tt, s2)
    /\ calls s2 = calls s ++ [virtual_write VPIN_ACTINS (VFloat (activeInsulin data))].
Proof.
  intros t Hnew Hrecent Hraise Hok.
  assert (exists s1, upload_bolus B w1 data s = (Raises, s1)
                     /\ calls s1 = calls s
                     /\ g_lastBolusTime (globals s1) = Some t) as (s1 & Hrun1 & Hc1 & Hl1).
  { unfold upload_bolus. fold t.
    erewrite bind_returns by reflexivity.
    rewrite bool_decide_eq_true_2 by congruence.
    erewrite bind_returns by reflexivity.
    apply Z.ltb_lt in Hrecent. rewrite Hrecent.
    unfold blynk. simpl. rewrite Hraise.
    eexists. split; [reflexivity|]. split; reflexivity. }
  exists s1. eexists. split; [exact Hrun1|]. split; [exact Hc1|]. split; [exact Hl1|].
  unfold upload_bolus. fold t.
  erewrite bind_returns by reflexivity.
  rewrite bool_decide_eq_false_2 by (rewrite Hl1; tauto).
  rewrite (blynk_completes w2 _ _ (Hok _)).
  split; [reflexivity|]. now rewrite calls_logged, Hc1.
Qed.

(** ** The further theorems at sample inputs *)

Lemma read_loop_first_return_witness :
  exists s',
    read_loop flaky_world MAX_RETRIES_AT_FAILURE 0 initial_state
    = (Returns (Some sample_data), s')
    /\ calls s' = [syslog read_error_msg; sleep RETRY_DELAY; readLiveData].
Proof.
  destruct (read_loop_first_return flaky_world MAX_RETRIES_AT_FAILURE 0 1
              (Some sample_data) initial_state)
    as (s' & Hrun & _ & Hcalls).
  - unfold MAX_RETRIES_AT_FAILURE. lia.
  - intros i Hi. assert (i = 0%nat) as -> by lia. reflexivity.
  - reflexivity.
  - exists s'. split; [exact Hrun | exact Hcalls].
Defined.

Lemma read_loop_exhausted_witness :
  exists s',
    read_loop dead_world MAX_RETRIES_AT_FAILURE 0 initial_state = (Returns None, s')
    /\ calls s' = [syslog read_error_msg; sleep RETRY_DELAY;
                   syslog read_error_msg; sleep RETRY_DELAY;
                   syslog read_error_msg].
Proof.
  destruct (read_loop_exhausted dead_world MAX_RETRIES_AT_FAILURE 0 initial_state)
    as (s' & Hrun & _ & Hcalls & _).
  - reflexivity.
  - exists s'. split; [exact Hrun | exact Hcalls].
Defined.

Lemma no_data_cycle_witness :
  exists s',
    upload_live_data sample_builtins sample_SENSOR_LOST sample_SENSOR_LOST_STR sample_cfg
      dead_world initial_state = (Returns tt, s')
    /\ g_cycleTimer (globals s') = Some 190
    /\ In (nightscout_upload None) (calls s').
Proof.
  destruct (no_data_cycle sample_builtins sample_SENSOR_LOST sample_SENSOR_LOST_STR
              sample_cfg dead_world initial_state)
    as (s' & Hrun & Hcalls & Hg); try reflexivity.
  exists s'. split; [exact Hrun|]. split; [now rewrite Hg|].
  rewrite Hcalls. simpl. tauto.
Defined.

Lemma timer_delay_at_least_10_witness :
  exists r s' delay,
    upload_live_data sample_builtins sample_SENSOR_LOST sample_SENSOR_LOST_STR sample_cfg
      late_world initial_state = (r, s')
    /\ g_cycleTimer (globals s') = Some delay
    /\ 10 <= delay.
Proof.
  destruct (timer_delay_at_least_10 sample_builtins sample_SENSOR_LOST
              sample_SENSOR_LOST_STR sample_cfg late_world initial_state eq_refl)
    as (r & s' & delay & Hrun & Hset & Hmin & _).
  exists r, s', delay. repeat split; assumption.
Defined.

Lemma wake_up_window_witness :
  let d := account_for_drift sample_SENSOR_LOST sample_data in
  nextReading d + 9000000
  < now_pump_tz sample_world + (tmoSeconds sample_world (Some d) + 10) * 1000000
  <= nextReading d + 10000000
  /\ tmoSeconds late_world (Some d) + 10 = 190.
Proof.
  intros d.
  pose proof (wake_up_window sample_world d) as (Hfresh & _ & _).
  pose proof (wake_up_window late_world d) as (_ & _ & Hlate).
  split.
  - apply Hfresh; vm_compute; [discriminate | reflexivity].
  - apply Hlate. vm_compute. discriminate.
Defined.


Lemma split_hash_0_drops_comment_witness :
  split_hash_0 "250 # upper limit" = "250 "%string.
Proof.
  apply (proj1 (proj2 (split_hash_0_drops_comment "250 # upper limit"))
           "250 "%string " upper limit"%string).
  - unfold occurs. simpl. intros H.
    repeat (destruct H as [H|H]; [discriminate H|]). exact H.
  - reflexivity.
Defined.

Lemma strip_removes_both_ends_witness :
  strip double_quote (strip double_quote (String double_quote "blynk-cloud.com"))
  = strip double_quote (String double_quote "blynk-cloud.com").
Proof.
  exact (proj2 (proj2 (strip_removes_both_ends double_quote
                         (String double_quote "blynk-cloud.com")))).
Defined.

Lemma quoted_value_before_comment_witness :
  unquote (String double_quote "70"
           +:+ String double_quote (String " " (String "#" " low limit")))
  = "70" +:+ String double_quote (String " " EmptyString)
  /\ to_int sample_builtins
       (unquote (String double_quote "70"
                 +:+ String double_quote (String " " (String "#" " low limit")))) = 0.
Proof.
  destruct (quoted_value_before_comment "70" " low limit" "7"%char) as [_ Hkeep];
    try reflexivity; try discriminate.
  - unfold occurs. simpl. intros H.
    repeat (destruct H as [H|H]; [discriminate H|]). exact H.
  - split; [exact Hkeep|]. rewrite Hkeep. reflexivity.
Defined.

Lemma sensor_exception_codes_domain_witness :
  sensor_exception_codes sample_SENSOR_LOST sample_SENSOR_LOST_STR !! 0x0310 = None.
Proof.
  pose proof (sensor_exception_codes_domain sample_SENSOR_LOST sample_SENSOR_LOST_STR
                0x0310) as [Hdom _].
  destruct (sensor_exception_codes sample_SENSOR_LOST sample_SENSOR_LOST_STR !! 0x0310)
    as [v|]; [|reflexivity].
  exfalso. destruct Hdom as [H|H]; [eexists; reflexivity | lia | discriminate H].
Defined.

Lemma account_for_drift_idempotent_iff_witness :
  account_for_drift sample_SENSOR_LOST (account_for_drift sample_SENSOR_LOST sample_data)
  <> account_for_drift sample_SENSOR_LOST sample_data.
Proof.
  intros H.
  apply (proj1 (account_for_drift_idempotent_iff sample_SENSOR_LOST sample_data)) in H.
  discriminate H.
Defined.

Lemma no_blynk_call_when_disabled_witness :
  let cfg := {| blynk_server := blynk_server sample_cfg;
                blynk_token := "";
                blynk_heartbeat := blynk_heartbeat sample_cfg;
                nightscout_server := nightscout_server sample_cfg;
                nightscout_api_secret := nightscout_api_secret sample_cfg;
                bgl_low_val := bgl_low_val sample_cfg;
                bgl_pre_low_val := bgl_pre_low_val sample_cfg;
                bgl_pre_high_val := bgl_pre_high_val sample_cfg;
                bgl_high_val := bgl_high_val sample_cfg |} in
  exists r s',
    upload_live_data sample_builtins sample_SENSOR_LOST sample_SENSOR_LOST_STR cfg
      sample_world initial_state = (r, s')
    /\ Forall (fun c => is_blynk_call c = false) (calls s')
    /\ g_lastBolusTime (globals s') = None.
Proof.
  intros cfg.
  destruct (no_blynk_call_when_disabled sample_builtins sample_SENSOR_LOST
              sample_SENSOR_LOST_STR cfg sample_world initial_state eq_refl eq_refl)
    as (r & s' & new & Hrun & Hcalls & Hnew & Hlast & _).
  exists r, s'. split; [exact Hrun|]. split; [|exact Hlast].
  rewrite Hcalls. exact Hnew.
Defined.

Lemma flags_only_escalate_witness :
  let flagged :=
    {| sensorBGL := sensorBGL sample_data;
       sensorBGLTimestamp := sensorBGLTimestamp sample_data;
       sensorCalMinutesRemaining := sensorCalMinutesRemaining sample_data;
       trendArrow := trendArrow sample_data;
       pumpTime := pumpTime sample_data;
       pumpTimeDrift := pumpTimeDrift sample_data;
       activeInsulin := activeInsulin sample_data;
       lastBolusAmount := lastBolusAmount sample_data;
       lastBolusTime := lastBolusTime sample_data;
       insulinUnitsRemaining := insulinUnitsRemaining sample_data;
       batteryLevelPercentage := batteryLevelPercentage sample_data;
       sensorBatteryLevelPercentage := sensorBatteryLevelPercentage sample_data;
       pumpAlert := {| alertSuspend := false; alertSuspendLow := false;
                       alertOnLow := false; alertOnHigh := false;
                       alertBeforeLow := false; alertBeforeHigh := true |} |} in
  exists tier tier',
    displayed_severity
      (calls (upload_sensor sample_builtins sample_SENSOR_LOST sample_SENSOR_LOST_STR
                sample_cfg sample_world sample_data initial_state).2) = Some tier
    /\ displayed_severity
         (calls (upload_sensor sample_builtins sample_SENSOR_LOST sample_SENSOR_LOST_STR
                   sample_cfg sample_world flagged initial_state).2) = Some tier'
    /\ (rank tier <= rank tier')%nat.
Proof.
  intros flagged.
  destruct (flags_only_escalate sample_builtins sample_SENSOR_LOST sample_SENSOR_LOST_STR
              sample_cfg sample_world sample_data flagged initial_state initial_state)
    as (s1 & s1' & shown & shown' & tier & tier' & Hrun & Hc & Hsev & Hrun' & Hc' & Hsev'
        & Hrank).
  - reflexivity.
  - unfold flags_le. simpl. repeat split; intros H; discriminate H.
  - vm_compute. reflexivity.
  - reflexivity.
  - exists tier, tier'. rewrite Hrun, Hrun'. simpl. rewrite Hc, Hc'.
    repeat split; assumption.
Defined.

Lemma link_notices_alternate_witness :
  exists n,
    notices (foldl handle_event initial_link [on_connect; on_connect; on_disconnect])
    = alternating n
    /\ (n <= 3)%nat.
Proof.
  destruct (link_notices_alternate [on_connect; on_connect; on_disconnect])
    as (n & Hn & _ & Hle).
  exists n. split; [exact Hn | exact Hle].
Defined.

Lemma battery_slot_alternates_witness :
  exists s1 label label',
    upload_live_data sample_builtins sample_SENSOR_LOST sample_SENSOR_LOST_STR sample_cfg
      sample_world initial_state = (Returns tt, s1)
    /\ head (calls (upload_battery sample_world sample_data initial_state).2)
       = Some (set_property VPIN_BATTERY "label" label)
    /\ head (drop (length (calls s1))
               (calls (upload_battery sample_world sample_data s1).2))
       = Some (set_property VPIN_BATTERY "label" label')
    /\ label <> label'.
Proof.
  destruct (battery_slot_alternates sample_builtins sample_SENSOR_LOST
              sample_SENSOR_LOST_STR sample_cfg sample_world sample_world sample_data
              initial_state eq_refl eq_refl (fun _ => eq_refl))
    as (s1 & s2 & s2' & label & label' & rest & rest' & Hrun & Hb & Hc & Hb' & Hc' & Halt).
  exists s1, label, label'. split; [exact Hrun|].
  rewrite Hb, Hb'. simpl. rewrite Hc, Hc'. simpl.
  split; [reflexivity|]. split.
  - now rewrite drop_app_length.
  - destruct Halt as [[-> ->]|[-> ->]]; discriminate.
Defined.

Lemma bolus_amount_lost_when_write_raises_witness :
  let recent := {| driver_read := driver_read sample_world;
                   blynk_raises := fun _ => true;
                   nightscout_raises := false;
                   timer_raises := false;
                   now_naive := now_naive sample_world;
                   time_time := 1604922060;
                   now_pump_tz := now_pump_tz sample_world |} in
  exists s1 s2,
    upload_bolus sample_builtins recent sample_data initial_state = (Raises, s1)
    /\ upload_bolus sample_builtins sample_world sample_data s1 = (Returns tt, s2)
    /\ calls s2 = [virtual_write VPIN_ACTINS (VFloat (activeInsulin sample_data))].
Proof.
  intros recent.
  destruct (bolus_amount_lost_when_write_raises sample_builtins recent sample_world
              sample_data initial_state)
    as (s1 & s2 & Hrun1 & _ & _ & Hrun2 & Hcalls).
  - discriminate.
  - vm_compute. reflexivity.
  - reflexivity.
  - reflexivity.
  - exists s1, s2. split; [exact Hrun1|]. split; [exact Hrun2 | exact Hcalls].
Defined.
